(** * Verification of scripts/metrics_trends.py

    A shallow embedding of the scoring rubric ([score_day] and its helpers)
    and of the trend aggregation done by [main], followed by the theorems
    that settle the properties stated for them.

    Modelling decisions, all of them visible in the definitions below:

    - Python [int] is [Z].
    - Python [float] is [pyfloat]: a finite value is an exact rational
      (arithmetic on finite values is exact: binary64 rounding and overflow
      are idealised away), and the three non finite values are kept because
      [float("inf")], [float("nan")] and the [Infinity]/[NaN] literals
      accepted by [json.loads] produce them.
    - a value decoded by [json.loads] is a [json]; a dict is the list of
      its items in insertion order (keys pairwise distinct, lookup takes the
      first binding).
    - a Python exception is a constructor of [exn]; a call that may raise
      returns a [result], and a [for] loop is a fold that stops at the
      first exception.
    - the [set] of [collect_hosts] is a [gset] of hash keys.
    - the module level [W = Weights()] read by [score_day] is an explicit
      argument.
    - [main] takes the files found, each with what [load_json] returns for
      it, and returns what it prints and writes as an [outcome]; the window
      sizes 7 and 3 written in [main] are arguments of [last_days] and
      [worst_days]. *)

From Stdlib Require Import ZArith QArith Qcanon Qround Qminmax Lqa Lia.
From Stdlib Require Import Ascii String List Sorting.Sorted Sorting.Permutation.
From stdpp Require Import base gmap strings list.

Local Open Scope string_scope.
Local Open Scope Z_scope.
Import ListNotations.

(* [set_solver] clears hypotheses that may be absent. *)
Set Warnings "-clear-no-such-hyp".

(** ** Exceptions and results *)

Inductive exn : Set :=
| TypeError
| ValueError
| AttributeError
| OverflowError
| ZeroDivisionError
| IndexError.

Inductive result (A : Type) : Type :=
| Ok (a : A)
| Raise (e : exn).

Arguments Ok {A} a.
Arguments Raise {A} e.

Definition rbind {A B : Type} (r : result A) (k : A -> result B) : result B :=
  match r with
  | Ok a => k a
  | Raise e => Raise e
  end.

Notation "'let*' x ':=' r 'in' k" := (rbind r (fun x => k))
  (at level 10, x name, r at level 100, k at level 200).

(** A [for] loop whose body may raise: the accumulator is threaded through
    the iterations and the first exception ends the loop. *)
Fixpoint for_each {A S : Type} (body : S -> A -> result S) (l : list A) (s : S)
  : result S :=
  match l with
  | [] => Ok s
  | a :: l' => let* s' := body s a in for_each body l' s'
  end.

Fixpoint mapM {A B : Type} (f : A -> result B) (l : list A) : result (list B) :=
  match l with
  | [] => Ok []
  | a :: l' => let* b := f a in let* bs := mapM f l' in Ok (b :: bs)
  end.

(** ** Python floats *)

Inductive pyfloat : Set :=
| Fin (q : Q)
| PInf
| NInf
| NaN.

(** Finite results are kept in lowest terms, so that two equal finite
    floats computed by the model are the same term. *)
Definition fin (q : Q) : pyfloat := Fin (Qred q).

Definition float_of_int (z : Z) : pyfloat := Fin (inject_Z z).

Definition Qltb (x y : Q) : bool := negb (Qle_bool y x).

(** [a < b]; every comparison with [nan] is false. *)
Definition flt (a b : pyfloat) : bool :=
  match a, b with
  | NaN, _ | _, NaN => false
  | Fin x, Fin y => Qltb x y
  | NInf, NInf => false
  | NInf, _ => true
  | _, NInf => false
  | PInf, _ => false
  | Fin _, PInf => true
  end.

Definition fgt (a b : pyfloat) : bool := flt b a.

(** [a == b] on floats. *)
Definition feqb (a b : pyfloat) : bool :=
  match a, b with
  | Fin x, Fin y => Qeq_bool x y
  | PInf, PInf | NInf, NInf => true
  | _, _ => false
  end.

Definition fadd (a b : pyfloat) : pyfloat :=
  match a, b with
  | NaN, _ | _, NaN => NaN
  | Fin x, Fin y => fin (x + y)
  | PInf, NInf | NInf, PInf => NaN
  | PInf, _ | _, PInf => PInf
  | NInf, _ | _, NInf => NInf
  end.

Definition fsub (a b : pyfloat) : pyfloat :=
  match a, b with
  | NaN, _ | _, NaN => NaN
  | Fin x, Fin y => fin (x - y)
  | PInf, PInf | NInf, NInf => NaN
  | PInf, _ | _, NInf => PInf
  | NInf, _ | _, PInf => NInf
  end.

(** Sign of a float that is not [nan]: [-1], [0] or [1]. *)
Definition fsign (a : pyfloat) : Z :=
  match a with
  | Fin x => Z.sgn (Qnum x)
  | PInf => 1
  | NInf => -1
  | NaN => 0
  end.

Definition inf_of_sign (s : Z) : pyfloat :=
  match s with
  | Z0 => NaN
  | Zpos _ => PInf
  | Zneg _ => NInf
  end.

Definition fmul (a b : pyfloat) : pyfloat :=
  match a, b with
  | NaN, _ | _, NaN => NaN
  | Fin x, Fin y => fin (x * y)
  | _, _ => inf_of_sign (fsign a * fsign b)
  end.

(** [a / b]: a zero divisor raises, whatever the dividend. *)
Definition truediv (a b : pyfloat) : result pyfloat :=
  match b with
  | Fin y =>
      if Qeq_bool y 0 then Raise ZeroDivisionError
      else match a with
           | Fin x => Ok (fin (x / y))
           | NaN => Ok NaN
           | _ => Ok (inf_of_sign (fsign a * fsign b))
           end
  | NaN => Ok NaN
  | _ => match a with
         | Fin _ => Ok (Fin 0)
         | _ => Ok NaN
         end
  end.

(** The builtins [min(a, b)] and [max(a, b)]: the first argument is kept
    unless the second is strictly smaller (larger). *)
Definition py_min2 (a b : pyfloat) : pyfloat := if flt b a then b else a.
Definition py_max2 (a b : pyfloat) : pyfloat := if fgt b a then b else a.

(** [max(l)] on a list: raises on the empty list. *)
Definition py_max (l : list pyfloat) : result pyfloat :=
  match l with
  | [] => Raise ValueError
  | h :: t => Ok (fold_left py_max2 t h)
  end.

(** Rounding of a rational to the nearest integer, ties to even. *)
Definition round_half_even (q : Q) : Z :=
  let f := Qfloor q in
  match Qcompare (q - inject_Z f) (1 # 2) with
  | Lt => f
  | Gt => f + 1
  | Eq => if Z.even f then f else f + 1
  end.

(** [round(x, 2)]. *)
Definition round2 (q : Q) : Q := (inject_Z (round_half_even (q * 100)) / 100)%Q.

Definition py_round2 (a : pyfloat) : pyfloat :=
  match a with
  | Fin x => fin (round2 x)
  | _ => a
  end.

(** [sum(vals)]: starts from the integer [0] and adds from the left. *)
Definition py_sum (vals : list pyfloat) : pyfloat :=
  fold_left fadd vals (float_of_int 0).

(** ** Values decoded from JSON *)

#[warnings="-register-all"]
Inductive json : Type :=
| JNull
| JBool (b : bool)
| JInt (z : Z)
| JFloat (f : pyfloat)
| JStr (s : string)
| JList (l : list json)
| JDict (kv : list (string * json)).

Definition dict : Type := list (string * json).

(** [d.get(k, default)] on a dict. *)
Fixpoint dict_get (d : dict) (k : string) (default : json) : json :=
  match d with
  | [] => default
  | (k', v) :: d' => if String.eqb k k' then v else dict_get d' k default
  end.

(** [v.get(k, default)] on any value: only a dict has the method. *)
Definition py_get (v : json) (k : string) (default : json) : result json :=
  match v with
  | JDict d => Ok (dict_get d k default)
  | _ => Raise AttributeError
  end.

Fixpoint chars_of (s : string) : list json :=
  match s with
  | EmptyString => []
  | String c s' => JStr (String c EmptyString) :: chars_of s'
  end.

(** The sequence a [for] loop runs over: the elements of a list, the keys
    of a dict, the characters of a string; anything else is not iterable. *)
Definition py_iter (v : json) : result (list json) :=
  match v with
  | JList l => Ok l
  | JDict d => Ok (map (fun kv => JStr (fst kv)) d)
  | JStr s => Ok (chars_of s)
  | _ => Raise TypeError
  end.

(** Truth value of a value, as tested by [if v:]. *)
Definition py_bool (v : json) : bool :=
  match v with
  | JNull => false
  | JBool b => b
  | JInt z => negb (z =? 0)
  | JFloat (Fin q) => negb (Qeq_bool q 0)
  | JFloat _ => true
  | JStr s => negb (String.eqb s "")
  | JList l => match l with [] => false | _ => true end
  | JDict d => match d with [] => false | _ => true end
  end.

(** *** Numeric literals in strings

    The grammar accepted by [int(s)] and [float(s)] on ASCII text:
    surrounding white space, a sign, decimal digits in which single
    underscores may separate digits, and for floats a fraction, an exponent
    and the words inf, infinity and nan in any case. *)

Definition is_space (c : ascii) : bool :=
  let n := nat_of_ascii c in
  ((9 <=? n) && (n <=? 13) || (28 <=? n) && (n <=? 32))%nat.

Definition digit_val (c : ascii) : option Z :=
  let n := nat_of_ascii c in
  if ((48 <=? n) && (n <=? 57))%nat then Some (Z.of_nat n - 48) else None.

Definition lower (c : ascii) : ascii :=
  let n := nat_of_ascii c in
  if ((65 <=? n) && (n <=? 90))%nat then ascii_of_nat (n + 32) else c.

Fixpoint lstrip (cs : list ascii) : list ascii :=
  match cs with
  | c :: cs' => if is_space c then lstrip cs' else cs
  | [] => []
  end.

Definition strip (cs : list ascii) : list ascii :=
  rev (lstrip (rev (lstrip cs))).

(** Reads the longest run [digit ("_"? digit)*] continuing a number whose
    value so far is [acc] over [n] digits. *)
Fixpoint digits_go (acc : Z) (n : nat) (cs : list ascii) : Z * nat * list ascii :=
  match cs with
  | c :: cs' =>
      match digit_val c with
      | Some d => digits_go (10 * acc + d) (S n) cs'
      | None =>
          if Ascii.eqb c "_"%char then
            match cs' with
            | c2 :: cs'' =>
                match digit_val c2 with
                | Some d => digits_go (10 * acc + d) (S n) cs''
                | None => (acc, n, cs)
                end
            | [] => (acc, n, cs)
            end
          else (acc, n, cs)
      end
  | [] => (acc, n, cs)
  end.

Definition digitpart (cs : list ascii) : option (Z * nat * list ascii) :=
  match cs with
  | c :: cs' =>
      match digit_val c with
      | Some d => Some (digits_go d 1 cs')
      | None => None
      end
  | [] => None
  end.

(** An optional sign: [1] or [-1], and the rest. *)
Definition read_sign (cs : list ascii) : Z * list ascii :=
  match cs with
  | c :: cs' =>
      if Ascii.eqb c "+"%char then (1, cs')
      else if Ascii.eqb c "-"%char then (-1, cs')
      else (1, cs)
  | [] => (1, cs)
  end.

Definition int_of_string (s : string) : option Z :=
  let (sg, cs) := read_sign (strip (list_ascii_of_string s)) in
  match digitpart cs with
  | Some (v, _, []) => Some (sg * v)
  | _ => None
  end.

(** An optional exponent part: the exponent and the rest, [None] when an
    exponent marker is not followed by digits. *)
Definition read_exponent (cs : list ascii) : option (Z * list ascii) :=
  match cs with
  | c :: cs' =>
      if Ascii.eqb (lower c) "e"%char then
        let (sg, cs1) := read_sign cs' in
        match digitpart cs1 with
        | Some (e, _, rest) => Some (sg * e, rest)
        | None => None
        end
      else Some (0, cs)
  | [] => Some (0, cs)
  end.

(** Mantissa [m] with [k] fraction digits and exponent [e]. *)
Definition decimal_value (sg m : Z) (k : nat) (e : Z) : pyfloat :=
  fin (inject_Z (sg * m) * Qpower 10 (e - Z.of_nat k)).

Definition finish_decimal (sg m : Z) (k : nat) (cs : list ascii) : option pyfloat :=
  match read_exponent cs with
  | Some (e, []) => Some (decimal_value sg m k e)
  | _ => None
  end.

Definition float_of_string (s : string) : option pyfloat :=
  let (sg, cs) := read_sign (strip (list_ascii_of_string s)) in
  let word := string_of_list_ascii (map lower cs) in
  if String.eqb word "inf" || String.eqb word "infinity" then
    Some (if sg =? 1 then PInf else NInf)
  else if String.eqb word "nan" then Some NaN
  else
    match digitpart cs with
    | Some (i, _, c :: cs1) =>
        if Ascii.eqb c "."%char then
          match digitpart cs1 with
          | Some (f, k, cs2) =>
              finish_decimal sg (i * 10 ^ Z.of_nat k + f) k cs2
          | None => finish_decimal sg i 0 cs1
          end
        else finish_decimal sg i 0 (c :: cs1)
    | Some (i, _, []) => Some (decimal_value sg i 0 0)
    | None =>
        match cs with
        | c :: cs1 =>
            if Ascii.eqb c "."%char then
              match digitpart cs1 with
              | Some (f, k, cs2) => finish_decimal sg f k cs2
              | None => None
              end
            else None
        | [] => None
        end
    end.

(** *** The builtins [int] and [float] *)

(** Truncation towards zero. *)
Definition Qtruncate (q : Q) : Z := Z.quot (Qnum q) (Zpos (Qden q)).

Definition py_int (v : json) : result Z :=
  match v with
  | JBool b => Ok (if b then 1 else 0)
  | JInt z => Ok z
  | JFloat (Fin q) => Ok (Qtruncate q)
  | JFloat NaN => Raise ValueError
  | JFloat _ => Raise OverflowError
  | JStr s =>
      match int_of_string s with
      | Some z => Ok z
      | None => Raise ValueError
      end
  | JNull | JList _ | JDict _ => Raise TypeError
  end.

Definition py_float (v : json) : result pyfloat :=
  match v with
  | JBool b => Ok (float_of_int (if b then 1 else 0))
  | JInt z => Ok (float_of_int z)
  | JFloat (Fin q) => Ok (fin q)
  | JFloat f => Ok f
  | JStr s =>
      match float_of_string s with
      | Some f => Ok f
      | None => Raise ValueError
      end
  | JNull | JList _ | JDict _ => Raise TypeError
  end.

(** *** Hashable values, as stored in a [set]

    Numbers are compared by value across [bool], [int] and [float]
    ([True == 1 == 1.0]), so they share one kind of key; a list or a dict is
    not hashable. *)

Inductive hkey : Set :=
| HNone
| HStr (s : string)
| HNum (q : Qc)
| HPInf
| HNInf
| HNaN.

Global Instance hkey_eq_dec : EqDecision hkey.
Proof. solve_decision. Defined.

Definition hkey_code (k : hkey) : string + (Qc + nat) :=
  match k with
  | HStr s => inl s
  | HNum q => inr (inl q)
  | HNone => inr (inr 0%nat)
  | HPInf => inr (inr 1%nat)
  | HNInf => inr (inr 2%nat)
  | HNaN => inr (inr 3%nat)
  end.

Definition hkey_decode (c : string + (Qc + nat)) : hkey :=
  match c with
  | inl s => HStr s
  | inr (inl q) => HNum q
  | inr (inr 0%nat) => HNone
  | inr (inr 1%nat) => HPInf
  | inr (inr 2%nat) => HNInf
  | inr (inr _) => HNaN
  end.

Global Instance hkey_countable : Countable hkey.
Proof. apply (inj_countable' hkey_code hkey_decode). by intros []. Defined.

Definition py_hash (v : json) : result hkey :=
  match v with
  | JNull => Ok HNone
  | JBool b => Ok (HNum (Q2Qc (inject_Z (if b then 1 else 0))))
  | JInt z => Ok (HNum (Q2Qc (inject_Z z)))
  | JFloat (Fin q) => Ok (HNum (Q2Qc q))
  | JFloat PInf => Ok HPInf
  | JFloat NInf => Ok HNInf
  | JFloat NaN => Ok HNaN
  | JStr s => Ok (HStr s)
  | JList _ | JDict _ => Raise TypeError
  end.

(** ** Config / weights *)

(** The dataclass [Weights]; its field [freshness_penalty] is
    [freshness_penalty_w] here, the plain name being the function's. *)
Record Weights : Set := {
  run_success : Q;
  tab_completion : Q;
  rss_errors : Q;
  freshness_penalty_w : Q;
  ai_strict_rate : Q;
  off_topic_penalty : Q;
  duplication_penalty : Q;
  host_diversity : Q
}.

Definition W : Weights := {|
  run_success := 12;
  tab_completion := 12;
  rss_errors := 10;
  freshness_penalty_w := 6;
  ai_strict_rate := 25;
  off_topic_penalty := 15;
  duplication_penalty := 10;
  host_diversity := 10
|}.

Definition MAX_RSS_ERRORS_FOR_FULL_SCORE : Z := 5.
Definition MAX_OFFTOPIC_RATE : pyfloat := Fin (1 # 5).
Definition MAX_DUP_RATE : pyfloat := Fin (1 # 5).
Definition TARGET_HOST_DIVERSITY : Z := 10.

(** ** Helpers *)

Definition clamp (x lo hi : pyfloat) : pyfloat := py_max2 lo (py_min2 hi x).

(** [clamp(x)] with the default bounds [0.0] and [1.0]. *)
Definition clamp01 (x : pyfloat) : pyfloat := clamp x (Fin 0) (Fin 1).

(** Every exception [int(v)] can raise is an [Exception], so all of them
    are caught. *)
Definition safe_int (v : json) (default : Z) : Z :=
  match py_int v with
  | Ok z => z
  | Raise _ => default
  end.


(** [n / d] on two integers. *)
Definition int_truediv (n d : Z) : result pyfloat :=
  truediv (float_of_int n) (float_of_int d).

Definition pct (n d : Z) : result pyfloat :=
  if d >? 0 then int_truediv n d else Ok (Fin 0).

Definition avg (vals : list pyfloat) : result pyfloat :=
  match vals with
  | [] => Ok (Fin 0)
  | _ => truediv (py_sum vals) (float_of_int (Z.of_nat (length vals)))
  end.

Fixpoint has_slash (p : string) : bool :=
  match p with
  | EmptyString => false
  | String c p' => Ascii.eqb c "/"%char || has_slash p'
  end.

(** [Path(p).name]: what follows the last separator. *)
Fixpoint path_name (p : string) : string :=
  match p with
  | EmptyString => EmptyString
  | String c p' =>
      if has_slash p' then path_name p'
      else if Ascii.eqb c "/"%char then p' else p
  end.

Definition startswith (s pre : string) : bool := String.prefix pre s.

Definition endswith (s suf : string) : bool :=
  (String.length suf <=? String.length s)%nat
  && String.eqb
       (String.substring (String.length s - String.length suf)
          (String.length suf) s) suf.

(** [name[8:-5]] is [String.substring 8 (len - 13) name]: empty when the
    name has fewer than 13 characters. *)
Definition parse_date_from_filename (p : string) : option string :=
  let name := path_name p in
  if startswith name "metrics-" && endswith name ".json" then
    Some (String.substring 8 (String.length name - 5 - 8) name)
  else None.

(** One item a tab contributes to the [hosts] set (the inner loop body of
    [collect_hosts]). *)
Definition add_source (hosts : gset hkey) (s : json) : result (gset hkey) :=
  let* v := py_get s "source" JNull in
  if py_bool v then
    let* k := py_hash v in Ok ({[ k ]} ∪ hosts)
  else Ok hosts.

Definition add_tab_sources (hosts : gset hkey) (t : json) : result (gset hkey) :=
  let* srcs := py_get t "sources" (JList []) in
  let* ss := py_iter srcs in
  for_each add_source ss hosts.

Definition collect_hosts (metrics : dict) : result Z :=
  let* ts := py_iter (dict_get metrics "tabs" (JList [])) in
  let* hosts := for_each add_tab_sources ts ∅ in
  Ok (Z.of_nat (size hosts)).

(** The loop body of [freshness_penalty]. *)
Definition add_hours (hours : list pyfloat) (t : json) : result (list pyfloat) :=
  let* h := py_get t "freshnessUsed" JNull in
  if py_bool h then
    let* f := py_float h in Ok (hours ++ [f])%list
  else Ok hours.

(** The list [hours] at the end of the loop of [freshness_penalty]. *)
Definition freshness_hours (metrics : dict) : result (list pyfloat) :=
  let* ts := py_iter (dict_get metrics "tabs" (JList [])) in
  for_each add_hours ts [].

Definition is_nil {A : Type} (l : list A) : bool :=
  match l with [] => true | _ => false end.

Definition freshness_penalty (metrics : dict) : result pyfloat :=
  let* hours := freshness_hours metrics in
  if is_nil hours then Ok (Fin 0)
  else
    let over := List.filter (fun h => fgt h (float_of_int 24)) hours in
    if is_nil over then Ok (Fin 0)
    else
      let* worst := py_max over in
      let* x := truediv (fsub worst (float_of_int 24)) (float_of_int 24) in
      Ok (clamp01 x).

(** ** Scoring *)

(** The dict returned next to the score. *)
Record diag : Set := {
  tabsTotal : Z;
  thinTabs : Z;
  noUpdateTabs : Z;
  rssErrors : Z;
  aiStrictRate : pyfloat;
  offTopicRate : pyfloat;
  dupRate : pyfloat;
  hostCount : Z;
  freshnessPenalty : pyfloat
}.

(** The eight terms of the score, one definition per local variable of
    [score_day]. *)

Definition s_run (Wt : Weights) (m : dict) : pyfloat :=
  fmul (Fin (run_success Wt))
       (float_of_int (if py_bool (dict_get m "runSuccess" JNull) then 1 else 0)).

Definition pen_tabs (thin empty tabs_total : Z) : result pyfloat :=
  if negb (tabs_total =? 0) then
    truediv (fadd (fmul (float_of_int thin) (Fin (12 # 100)))
                  (fmul (float_of_int empty) (Fin (30 # 100))))
            (float_of_int tabs_total)
  else Ok (float_of_int 1).

Definition s_tabs (Wt : Weights) (thin empty tabs_total : Z) : result pyfloat :=
  let* p := pen_tabs thin empty tabs_total in
  Ok (fmul (Fin (tab_completion Wt)) (clamp01 (fsub (float_of_int 1) p))).

Definition s_rss (Wt : Weights) (rss : Z) : result pyfloat :=
  let* r := int_truediv rss (MAX_RSS_ERRORS_FOR_FULL_SCORE * 2) in
  Ok (fmul (Fin (rss_errors Wt)) (clamp01 (fsub (float_of_int 1) r))).

Definition s_fresh (Wt : Weights) (pen : pyfloat) : pyfloat :=
  fmul (Fin (freshness_penalty_w Wt)) (fsub (float_of_int 1) pen).

Definition s_ai (Wt : Weights) (ai_rate : pyfloat) : pyfloat :=
  fmul (Fin (ai_strict_rate Wt)) ai_rate.

Definition s_off (Wt : Weights) (off_rate : pyfloat) : result pyfloat :=
  let* r := truediv off_rate MAX_OFFTOPIC_RATE in
  Ok (fmul (Fin (off_topic_penalty Wt)) (fsub (float_of_int 1) (clamp01 r))).

Definition s_dup (Wt : Weights) (dup_rate : pyfloat) : result pyfloat :=
  let* r := truediv dup_rate MAX_DUP_RATE in
  Ok (fmul (Fin (duplication_penalty Wt)) (fsub (float_of_int 1) (clamp01 r))).

Definition s_hosts (Wt : Weights) (hosts : Z) : result pyfloat :=
  let* r := int_truediv hosts TARGET_HOST_DIVERSITY in
  Ok (fmul (Fin (host_diversity Wt)) (clamp01 r)).

(** [safe_int(m.get("hostCount")) or collect_hosts(m)]. *)
Definition host_count (m : dict) : result Z :=
  let explicit := safe_int (dict_get m "hostCount" JNull) 0 in
  if negb (explicit =? 0) then Ok explicit else collect_hosts m.

Definition score_day (Wt : Weights) (m : dict) : result (pyfloat * diag) :=
  let tabs_total := safe_int (dict_get m "tabsTotal" JNull) 0 in
  let thin := safe_int (dict_get m "thinTabs" JNull) 0 in
  let empty := safe_int (dict_get m "noUpdateTabs" JNull) 0 in
  let rss := safe_int (dict_get m "rssErrors" JNull) 0 in
  let picked := safe_int (dict_get m "pickedItemsTotal" JNull) 0 in
  let ai_strict := safe_int (dict_get m "aiStrictCount" JNull) 0 in
  let off := safe_int (dict_get m "offTopicCount" JNull) 0 in
  let dup := safe_int (dict_get m "dupCount" JNull) 0 in
  let* hosts := host_count m in
  let* ai_rate := pct ai_strict picked in
  let* off_rate := pct off picked in
  let* dup_rate := pct dup (Z.max 1 picked) in
  let v_run := s_run Wt m in
  let* v_tabs := s_tabs Wt thin empty tabs_total in
  let* v_rss := s_rss Wt rss in
  let* pen := freshness_penalty m in
  let v_fresh := s_fresh Wt pen in
  let v_ai := s_ai Wt ai_rate in
  let* v_off := s_off Wt off_rate in
  let* v_dup := s_dup Wt dup_rate in
  let* v_hosts := s_hosts Wt hosts in
  let score :=
    py_round2
      (fadd (fadd (fadd (fadd (fadd (fadd (fadd v_run v_tabs) v_rss) v_fresh)
                              v_ai) v_off) v_dup) v_hosts) in
  let* pen' := freshness_penalty m in
  Ok (score,
      {| tabsTotal := tabs_total;
         thinTabs := thin;
         noUpdateTabs := empty;
         rssErrors := rss;
         aiStrictRate := ai_rate;
         offTopicRate := off_rate;
         dupRate := dup_rate;
         hostCount := hosts;
         freshnessPenalty := pen' |}).

(** ** Main *)

(** One element of [rows]: the dict [{"date": ..., "score": ..., **dbg}]. *)
Record row : Set := {
  date : string;
  score : pyfloat;
  dbg : diag
}.

(** The builtin [sorted(l, key=key)]: a stable sort that compares keys with
    [<] only.  [x] is put in front of the first element whose key is not
    smaller than its own. *)
Section Sorted.
Context {A K : Type} (ltb : K -> K -> bool) (key : A -> K).

Fixpoint sort_insert (x : A) (l : list A) : list A :=
  match l with
  | [] => [x]
  | y :: l' =>
      if ltb (key y) (key x) then y :: sort_insert x l' else x :: l
  end.

Fixpoint py_sorted (l : list A) : list A :=
  match l with
  | [] => []
  | x :: l' => sort_insert x (py_sorted l')
  end.
End Sorted.

(** The slices [l[i:]] and [l[:j]]: a negative index counts from the end,
    and both are cut to the bounds of the list. *)
Definition slice_index {A : Type} (l : list A) (i : Z) : nat :=
  let n := Z.of_nat (length l) in
  Z.to_nat (if i <? 0 then Z.max 0 (n + i) else Z.min i n).

Definition slice_from {A : Type} (l : list A) (i : Z) : list A :=
  drop (slice_index l i) l.

Definition slice_to {A : Type} (l : list A) (j : Z) : list A :=
  take (slice_index l j) l.

(** [l[-1]]. *)
Definition py_last {A : Type} (l : list A) : result A :=
  match List.rev l with
  | [] => Raise IndexError
  | x :: _ => Ok x
  end.

(** The days of the trailing window, [rows[-k:]], and the lowest scores,
    [sorted(rows, key=score)[:n]]; [main] takes [k = 7] and [n = 3]. *)
Definition last_days (k : Z) (rows : list row) : list row :=
  slice_from rows (- k).

Definition worst_days (n : Z) (rows : list row) : list row :=
  slice_to (py_sorted flt score rows) n.

(** What a run prints and writes: either the message
    "No metrics files found." alone, or the summary of the latest day with
    the trailing average and the worst days, followed by the three files
    written from [rows].  The exit status is 0 in both cases. *)
Inductive outcome : Set :=
| NoMetricsFound
| Summary (latest : row) (score7 : pyfloat) (worst : list row) (rows : list row).

(** The loop of [main] over the files found, in the order of the sorted
    paths; a file comes with what [load_json] returns for it.  A value that
    is not a dict has no [get] method: [score_day] raises on its first
    line. *)
Definition add_file (Wt : Weights) (rows : list row)
    (file : string * option json) : result (list row) :=
  match parse_date_from_filename (fst file), snd file with
  | Some d, Some m =>
      if negb (String.eqb d "") && py_bool m then
        let* r := match m with
                  | JDict kv => score_day Wt kv
                  | _ => Raise AttributeError
                  end in
        Ok (rows ++ [{| date := d; score := fst r; dbg := snd r |}])%list
      else Ok rows
  | _, _ => Ok rows
  end.

Definition scored_rows (Wt : Weights) (files : list (string * option json))
  : result (list row) :=
  for_each (add_file Wt) files [].

Definition main (Wt : Weights) (files : list (string * option json))
  : result outcome :=
  let* rows := scored_rows Wt files in
  if is_nil rows then Ok NoMetricsFound
  else
    let rows := py_sorted String.ltb date rows in
    let* latest := py_last rows in
    let last7 := last_days 7 rows in
    let* score7 := avg (map score last7) in
    let worst := worst_days 3 rows in
    Ok (Summary latest score7 worst rows).

(** * Vocabulary of the statements *)

Local Open Scope Q_scope.

(** ** Floats and the rationals they denote *)

(** [denotes f q]: the float [f] is finite and its value is [q]. *)
Definition denotes (f : pyfloat) (q : Q) : Prop :=
  match f with
  | Fin x => x == q
  | _ => False
  end.

Definition is_finite (f : pyfloat) : Prop := exists q, f = Fin q.

(** ** Weights *)

Definition weight_sum (Wt : Weights) : Q :=
  run_success Wt + tab_completion Wt + rss_errors Wt + freshness_penalty_w Wt
  + ai_strict_rate Wt + off_topic_penalty Wt + duplication_penalty Wt
  + host_diversity Wt.


(** ** Well-formed records *)









(** ** Source identifiers *)

(** The source identifiers of a record, as the specification describes them:
    the non-empty [source] values of the entries of every tab's [sources],
    in the order of the traversal. *)
Definition tab_sources (t : json) : result (list json) :=
  let* srcs := py_get t "sources" (JList []) in
  let* ss := py_iter srcs in
  let* vs := mapM (fun s => py_get s "source" JNull) ss in
  Ok (List.filter py_bool vs).

Definition source_ids (m : dict) : result (list json) :=
  let* ts := py_iter (dict_get m "tabs" (JList [])) in
  let* vss := mapM tab_sources ts in
  Ok (List.concat vss).

(** The number of distinct identifiers among [ks]. *)
Definition distinct_count (ks : list hkey) : Z :=
  Z.of_nat (size (list_to_set ks : gset hkey)).

(** ** Order, stability and means *)

(** "Not after": the order in which [sorted] leaves two neighbours. *)
Definition not_after {A K : Type} (ltb : K -> K -> bool) (key : A -> K)
    (x y : A) : Prop :=
  ltb (key y) (key x) = false.

(** The elements whose key equals [v]. *)
Definition with_key {A K : Type} (eqb : K -> K -> bool) (key : A -> K)
    (v : K) (l : list A) : list A :=
  List.filter (fun r => eqb (key r) v) l.

(** Rows in ascending order of date: no row is dated after a later one. *)
Definition date_ascending (rows : list row) : Prop :=
  StronglySorted (not_after String.ltb date) rows.

(** The rows whose score equals [v], in the order of the list. *)
Definition scoring (v : pyfloat) (rows : list row) : list row :=
  with_key feqb score v rows.

(** The arithmetic mean of a list of rationals. *)
Definition Qsum (qs : list Q) : Q := fold_right Qplus 0 qs.

Definition mean (qs : list Q) : Q := Qsum qs / inject_Z (Z.of_nat (length qs)).

(** A file that contributes no row: its name carries no date, or it could
    not be loaded, or it holds an empty value. *)
Definition skipped (file : string * option json) : Prop :=
  parse_date_from_filename (fst file) = None
  \/ parse_date_from_filename (fst file) = Some ""
  \/ snd file = None
  \/ exists v, snd file = Some v /\ py_bool v = false.

(** ** Sample records *)

(** A complete record, all counters consistent, with two tabs. *)
Definition day1 : dict :=
  [("runSuccess", JBool true); ("tabsTotal", JInt 10); ("thinTabs", JInt 1);
   ("noUpdateTabs", JInt 0); ("rssErrors", JInt 2);
   ("pickedItemsTotal", JInt 10); ("aiStrictCount", JInt 9);
   ("offTopicCount", JInt 1); ("dupCount", JInt 0);
   ("tabs",
    JList
      [JDict [("freshnessUsed", JInt 30);
              ("sources", JList [JDict [("source", JStr "a.com")];
                                 JDict [("source", JStr "b.com")]])];
       JDict [("freshnessUsed", JNull);
              ("sources", JList [JDict [("source", JStr "a.com")]])]])].



(** Two tabs, one of which reports an age of 48 hours. *)
Definition stale_day : dict :=
  [("tabs", JList [JDict [("freshnessUsed", JInt 48)]; JDict []])].

(** No picked item, five duplicates. *)
Definition empty_pick : dict :=
  [("dupCount", JInt 5); ("aiStrictCount", JInt 2); ("offTopicCount", JInt 1)].

Definition empty_pick_diag : diag :=
  {| tabsTotal := 0; thinTabs := 0; noUpdateTabs := 0; rssErrors := 0;
     aiStrictRate := Fin 0; offTopicRate := Fin 0; dupRate := Fin 5;
     hostCount := 0; freshnessPenalty := Fin 0 |}.

(** One tab whose sources are a.com, b.com and a.com again. *)
Definition three_sources : dict :=
  [("tabs",
    JList [JDict [("sources",
                   JList [JDict [("source", JStr "a.com")];
                          JDict [("source", JStr "b.com")];
                          JDict [("source", JStr "a.com")]])]])].

Definition three_sources_diag : diag :=
  {| tabsTotal := 0; thinTabs := 0; noUpdateTabs := 0; rssErrors := 0;
     aiStrictRate := Fin 0; offTopicRate := Fin 0; dupRate := Fin 0;
     hostCount := 2; freshnessPenalty := Fin 0 |}.

Definition no_diag : diag :=
  {| tabsTotal := 0; thinTabs := 0; noUpdateTabs := 0; rssErrors := 0;
     aiStrictRate := Fin 0; offTopicRate := Fin 0; dupRate := Fin 0;
     hostCount := 0; freshnessPenalty := Fin 0 |}.

Definition day (d : string) (s : Q) : row :=
  {| date := d; score := Fin s; dbg := no_diag |}.

(** Four days D1..D4 with the scores 10, 90, 10 and 50. *)
Definition four_days : list row :=
  [day "2024-01-01" 10; day "2024-01-02" 90; day "2024-01-03" 10;
   day "2024-01-04" 50].

(** ** The score as a formula on rationals *)

Definition Qclamp (x : Q) : Q := Qmax 0 (Qmin 1 x).

(** The integer read from the field [k] of a record. *)
Definition counter (m : dict) (k : string) : Z :=
  safe_int (dict_get m k JNull) 0.

(** The quotient [pct] computes. *)
Definition rate (n d : Z) : Q :=
  if (d >? 0)%Z then inject_Z n / inject_Z d else 0.

Definition tabs_penalty (thin empty tabs_total : Z) : Q :=
  if (tabs_total =? 0)%Z then 1
  else (inject_Z thin * (12 # 100) + inject_Z empty * (30 # 100))
       / inject_Z tabs_total.

Definition term_run (Wt : Weights) (m : dict) : Q :=
  run_success Wt * (if py_bool (dict_get m "runSuccess" JNull) then 1 else 0).

Definition term_tabs (Wt : Weights) (m : dict) : Q :=
  tab_completion Wt
  * Qclamp (1 - tabs_penalty (counter m "thinTabs") (counter m "noUpdateTabs")
                              (counter m "tabsTotal")).

Definition term_rss (Wt : Weights) (m : dict) : Q :=
  rss_errors Wt * Qclamp (1 - inject_Z (counter m "rssErrors") / 10).

Definition term_fresh (Wt : Weights) (pen : Q) : Q :=
  freshness_penalty_w Wt * (1 - pen).

Definition term_ai (Wt : Weights) (m : dict) : Q :=
  ai_strict_rate Wt
  * rate (counter m "aiStrictCount") (counter m "pickedItemsTotal").

Definition term_off (Wt : Weights) (m : dict) : Q :=
  off_topic_penalty Wt
  * (1 - Qclamp (rate (counter m "offTopicCount") (counter m "pickedItemsTotal")
                 / (1 # 5))).

Definition term_dup (Wt : Weights) (m : dict) : Q :=
  duplication_penalty Wt
  * (1 - Qclamp (rate (counter m "dupCount")
                      (Z.max 1 (counter m "pickedItemsTotal"))
                 / (1 # 5))).

Definition term_hosts (Wt : Weights) (hosts : Z) : Q :=
  host_diversity Wt * Qclamp (inject_Z hosts / 10).

(** The sum [score_day] rounds, for a record whose host count is [hosts]
    and whose freshness penalty is [pen]. *)
Definition exact_score (Wt : Weights) (m : dict) (hosts : Z) (pen : Q) : Q :=
  term_run Wt m + term_tabs Wt m + term_rss Wt m + term_fresh Wt pen
  + term_ai Wt m + term_off Wt m + term_dup Wt m + term_hosts Wt hosts.

(** ** More sample records *)

(** A day on which nothing went wrong. *)
Definition perfect_day : dict :=
  [("runSuccess", JBool true); ("tabsTotal", JInt 8); ("thinTabs", JInt 0);
   ("noUpdateTabs", JInt 0); ("rssErrors", JInt 0);
   ("pickedItemsTotal", JInt 40); ("aiStrictCount", JInt 40);
   ("offTopicCount", JInt 0); ("dupCount", JInt 0); ("hostCount", JInt 12);
   ("tabs", JList [JDict [("freshnessUsed", JInt 6)]])].

Definition perfect_day_diag : diag :=
  {| tabsTotal := 8; thinTabs := 0; noUpdateTabs := 0; rssErrors := 0;
     aiStrictRate := Fin 1; offTopicRate := Fin 0; dupRate := Fin 0;
     hostCount := 12; freshnessPenalty := Fin 0 |}.



(** A successful run without any other field. *)
Definition bare_run : dict := [("runSuccess", JBool true)].

(** ** Rows and the files they come from *)

(** The row [r] is the score of a file of [files]: a file named after the
    date of [r] whose content is a non-empty dict that [score_day] scores as
    [r] says. *)
Definition scored_from (Wt : Weights) (files : list (string * option json))
    (r : row) : Prop :=
  exists p kv,
    In (p, Some (JDict kv)) files
    /\ parse_date_from_filename p = Some (date r)
    /\ date r <> ""
    /\ kv <> []
    /\ score_day Wt kv = Ok (score r, dbg r).

(** Four files of a metrics directory: two scored days, a file that could
    not be loaded and a file of another name. *)
Definition sample_files : list (string * option json) :=
  [("data/metrics/metrics-2024-01-01.json", Some (JDict bare_run));
   ("data/metrics/metrics-2024-01-02.json", None);
   ("data/metrics/metrics-2024-01-03.json", Some (JDict perfect_day));
   ("data/metrics/notes.json", Some (JDict day1))].

(** * Properties *)

(** ** Results *)

Lemma rbind_Ok {A B : Type} (r : result A) (k : A -> result B) (b : B) :
  rbind r k = Ok b -> exists a, r = Ok a /\ k a = Ok b.
Proof. destruct r as [a | e]; simpl; [eauto | discriminate]. Qed.

(** ** Floats and the rationals they denote *)

Lemma denotes_Fin (q : Q) : denotes (Fin q) q.
Proof. simpl. reflexivity. Qed.

Lemma denotes_int (z : Z) : denotes (float_of_int z) (inject_Z z).
Proof. simpl. reflexivity. Qed.

Lemma denotes_eq (f : pyfloat) (q r : Q) : denotes f q -> q == r -> denotes f r.
Proof. destruct f; simpl; try tauto. intros H1 H2. rewrite H1. exact H2. Qed.

Lemma denotes_inv (f : pyfloat) (q : Q) :
  denotes f q -> exists x, f = Fin x /\ x == q.
Proof. destruct f; simpl; try tauto. eauto. Qed.

Lemma denotes_fadd (a b : pyfloat) (x y : Q) :
  denotes a x -> denotes b y -> denotes (fadd a b) (x + y).
Proof.
  destruct a, b; simpl; try tauto. intros Ha Hb.
  rewrite Qred_correct, Ha, Hb. reflexivity.
Qed.

Lemma denotes_fsub (a b : pyfloat) (x y : Q) :
  denotes a x -> denotes b y -> denotes (fsub a b) (x - y).
Proof.
  destruct a, b; simpl; try tauto. intros Ha Hb.
  rewrite Qred_correct, Ha, Hb. reflexivity.
Qed.

Lemma denotes_fmul (a b : pyfloat) (x y : Q) :
  denotes a x -> denotes b y -> denotes (fmul a b) (x * y).
Proof.
  destruct a, b; simpl; try tauto. intros Ha Hb.
  rewrite Qred_correct, Ha, Hb. reflexivity.
Qed.

Lemma denotes_truediv (a b : pyfloat) (x y : Q) :
  denotes a x -> denotes b y -> ~ y == 0 ->
  exists f, truediv a b = Ok f /\ denotes f (x / y).
Proof.
  destruct a as [x' | | |], b as [y' | | |]; simpl; try tauto.
  intros Ha Hb Hy.
  destruct (Qeq_bool y' 0) eqn:E.
  - apply Qeq_bool_eq in E. rewrite Hb in E. contradiction.
  - eexists. split; [reflexivity |]. simpl.
    rewrite Qred_correct, Ha, Hb. reflexivity.
Qed.

Lemma Qltb_lt (x y : Q) : Qltb x y = true <-> x < y.
Proof.
  unfold Qltb. rewrite negb_true_iff. split.
  - intros H. apply Qnot_le_lt. intros Hle.
    apply Qle_bool_iff in Hle. congruence.
  - intros H. destruct (Qle_bool y x) eqn:E; [| reflexivity].
    apply Qle_bool_iff in E. exfalso. apply (Qlt_not_le _ _ H E).
Qed.

Lemma Qltb_ge (x y : Q) : Qltb x y = false <-> y <= x.
Proof.
  unfold Qltb. rewrite negb_false_iff. apply Qle_bool_iff.
Qed.

(** [clamp(x)] is finite and in [[0, 1]] for every float, [nan] included. *)
Lemma clamp01_range (a : pyfloat) :
  exists c, clamp01 a = Fin c /\ 0 <= c <= 1.
Proof.
  unfold clamp01, clamp, py_max2, py_min2, fgt.
  destruct a as [x | | |]; simpl.
  - destruct (Qltb x 1) eqn:E1; simpl.
    + destruct (Qltb 0 x) eqn:E0; eexists; (split; [reflexivity |]).
      * apply Qltb_lt in E1, E0. lra.
      * lra.
    + exists 1%Q. split; [reflexivity | lra].
  - exists 1%Q. split; [reflexivity | lra].
  - exists 0%Q. split; [reflexivity | lra].
  - exists 1%Q. split; [reflexivity | lra].
Qed.

Lemma Qclamp_low (x : Q) : x <= 0 -> Qmax 0 (Qmin 1 x) == 0.
Proof. intros H. rewrite (Q.min_r 1 x) by lra. apply Q.max_l. exact H. Qed.

Lemma Qclamp_mid (x : Q) : 0 <= x <= 1 -> Qmax 0 (Qmin 1 x) == x.
Proof. intros H. rewrite (Q.min_r 1 x) by lra. apply Q.max_r. lra. Qed.

Lemma Qclamp_high (x : Q) : 1 <= x -> Qmax 0 (Qmin 1 x) == 1.
Proof. intros H. rewrite (Q.min_l 1 x) by lra. apply Q.max_r. lra. Qed.

(** On a finite value, [clamp(x)] is [max(0, min(1, x))]. *)
Lemma clamp01_denotes (a : pyfloat) (x : Q) :
  denotes a x -> denotes (clamp01 a) (Qmax 0 (Qmin 1 x)).
Proof.
  destruct a as [x' | | |]; simpl; try tauto. intros Hx.
  unfold clamp01, clamp, py_max2, py_min2, fgt. simpl.
  destruct (Qltb x' 1) eqn:E1; simpl.
  - apply Qltb_lt in E1. rewrite Hx in E1.
    destruct (Qltb 0 x') eqn:E0; simpl.
    + apply Qltb_lt in E0. rewrite Hx in E0.
      rewrite Qclamp_mid by lra. exact Hx.
    + apply Qltb_ge in E0. rewrite Hx in E0.
      rewrite Qclamp_low by lra. reflexivity.
  - apply Qltb_ge in E1. rewrite Hx in E1.
    rewrite Qclamp_high by lra. reflexivity.
Qed.

(** ** Rounding *)





(** ** The terms of the score *)

(** A weight times a factor of [[0, 1]] stays within [[0, weight]]. *)
Lemma weighted_range (w : Q) (c : pyfloat) (x : Q) :
  0 <= w -> denotes c x -> 0 <= x <= 1 ->
  exists q, denotes (fmul (Fin w) c) q /\ 0 <= q <= w.
Proof.
  intros Hw Hc Hx. exists (w * x). split.
  - apply denotes_fmul; [apply denotes_Fin | exact Hc].
  - nra.
Qed.

Lemma one_minus_clamp_range (a : pyfloat) :
  exists x, denotes (fsub (float_of_int 1) (clamp01 a)) x /\ 0 <= x <= 1.
Proof.
  destruct (clamp01_range a) as (c & Hc & Hr). rewrite Hc.
  exists (1 - c). split; [| lra].
  apply (denotes_fsub (float_of_int 1) (Fin c) 1 c); simpl; reflexivity.
Qed.


Lemma inject_Z_nonzero (z : Z) : z <> 0%Z -> ~ inject_Z z == 0.
Proof.
  intros Hz H. apply Hz. apply inject_Z_injective. exact H.
Qed.

(** Dividing two integers succeeds when the divisor is not zero. *)
Lemma int_truediv_denotes (n d : Z) :
  d <> 0%Z ->
  exists f, int_truediv n d = Ok f /\ denotes f (inject_Z n / inject_Z d).
Proof.
  intros Hd. unfold int_truediv.
  apply denotes_truediv; [apply denotes_int | apply denotes_int |].
  apply inject_Z_nonzero. exact Hd.
Qed.

(** [pct] never raises: it returns the quotient when the denominator is
    positive and [0.0] otherwise. *)
Lemma pct_denotes (n d : Z) :
  exists f, pct n d = Ok f
            /\ denotes f (if (d >? 0)%Z then inject_Z n / inject_Z d else 0).
Proof.
  unfold pct. destruct (d >? 0)%Z eqn:E.
  - apply int_truediv_denotes. lia.
  - exists (Fin 0). split; [reflexivity | apply denotes_Fin].
Qed.

Lemma pct_nonpositive (n d : Z) : (d <= 0)%Z -> pct n d = Ok (Fin 0).
Proof.
  intros Hd. unfold pct.
  destruct (d >? 0)%Z eqn:E; [lia | reflexivity].
Qed.


Lemma pen_tabs_returns (thin empty tabs_total : Z) :
  exists p, pen_tabs thin empty tabs_total = Ok p.
Proof.
  unfold pen_tabs. destruct (tabs_total =? 0)%Z eqn:E; simpl.
  - eauto.
  - destruct (denotes_truediv
                (fadd (fmul (float_of_int thin) (Fin (12 # 100)))
                      (fmul (float_of_int empty) (Fin (30 # 100))))
                (float_of_int tabs_total)
                (inject_Z thin * (12 # 100) + inject_Z empty * (30 # 100))
                (inject_Z tabs_total)) as (f & Hf & _).
    + apply denotes_fadd; apply denotes_fmul;
        first [apply denotes_int | apply denotes_Fin].
    + apply denotes_int.
    + apply inject_Z_nonzero. apply Z.eqb_neq. exact E.
    + eauto.
Qed.



(** Division by one of the two rate constants, both [0.20]. *)
Lemma truediv_rate_returns (a : pyfloat) : exists r, truediv a (Fin (1 # 5)) = Ok r.
Proof. destruct a; simpl; eauto. Qed.


Lemma s_dup_range (Wt : Weights) (dup_rate : pyfloat) :
  0 <= duplication_penalty Wt ->
  exists f q, s_dup Wt dup_rate = Ok f
              /\ denotes f q /\ 0 <= q <= duplication_penalty Wt.
Proof.
  intros Hw. unfold s_dup, MAX_DUP_RATE.
  destruct (truediv_rate_returns dup_rate) as (r & Hr).
  rewrite Hr. cbn [rbind].
  destruct (one_minus_clamp_range r) as (x & Hx & Hx').
  destruct (weighted_range _ _ _ Hw Hx Hx') as (q & Hq & Hq').
  eauto.
Qed.


(** The freshness penalty, when the traversal of the tabs returns, is a
    finite number of [[0, 1]]. *)
Lemma freshness_penalty_range (m : dict) (p : pyfloat) :
  freshness_penalty m = Ok p -> exists c, p = Fin c /\ 0 <= c <= 1.
Proof.
  unfold freshness_penalty. intros H.
  apply rbind_Ok in H as (hours & _ & H).
  destruct (is_nil hours).
  { injection H as <-. exists 0. split; [reflexivity | lra]. }
  destruct (is_nil _).
  { injection H as <-. exists 0. split; [reflexivity | lra]. }
  apply rbind_Ok in H as (worst & _ & H).
  apply rbind_Ok in H as (x & _ & H).
  injection H as <-. apply clamp01_range.
Qed.


(** ** The score and the sum of the weights *)






(** ** Records on which [score_day] returns *)







Lemma truediv_nonzero_returns (a : pyfloat) (y : Q) :
  Qeq_bool y 0 = false -> exists r, truediv a (Fin y) = Ok r.
Proof. intros H. unfold truediv. rewrite H. destruct a; eauto. Qed.


Lemma s_tabs_returns (Wt : Weights) (thin empty tabs_total : Z) :
  exists f, s_tabs Wt thin empty tabs_total = Ok f.
Proof.
  unfold s_tabs.
  destruct (pen_tabs_returns thin empty tabs_total) as (p & ->).
  cbn [rbind]. eauto.
Qed.

Lemma s_rss_returns (Wt : Weights) (rss : Z) : exists f, s_rss Wt rss = Ok f.
Proof.
  unfold s_rss, int_truediv.
  destruct (truediv_nonzero_returns (float_of_int rss)
              (inject_Z (MAX_RSS_ERRORS_FOR_FULL_SCORE * 2)))
    as (r & Hr); [reflexivity |].
  unfold float_of_int at 2. rewrite Hr. cbn [rbind]. eauto.
Qed.

Lemma s_off_returns (Wt : Weights) (off_rate : pyfloat) :
  exists f, s_off Wt off_rate = Ok f.
Proof.
  unfold s_off, MAX_OFFTOPIC_RATE.
  destruct (truediv_rate_returns off_rate) as (r & ->). cbn [rbind]. eauto.
Qed.

Lemma s_dup_returns (Wt : Weights) (dup_rate : pyfloat) :
  exists f, s_dup Wt dup_rate = Ok f.
Proof.
  unfold s_dup, MAX_DUP_RATE.
  destruct (truediv_rate_returns dup_rate) as (r & ->). cbn [rbind]. eauto.
Qed.

Lemma s_hosts_returns (Wt : Weights) (hosts : Z) :
  exists f, s_hosts Wt hosts = Ok f.
Proof.
  unfold s_hosts, int_truediv.
  destruct (truediv_nonzero_returns (float_of_int hosts)
              (inject_Z TARGET_HOST_DIVERSITY))
    as (r & Hr); [reflexivity |].
  unfold float_of_int at 2. rewrite Hr. cbn [rbind]. eauto.
Qed.

Lemma pct_returns (n d : Z) : exists f, pct n d = Ok f.
Proof. destruct (pct_denotes n d) as (f & Hf & _). eauto. Qed.

(** [score_day] returns exactly when its two traversals of the tabs do. *)
Lemma score_day_returns_when (Wt : Weights) (m : dict) (n : Z) (p : pyfloat) :
  host_count m = Ok n ->
  freshness_penalty m = Ok p ->
  exists s ai_rate off_rate dup_rate,
    score_day Wt m
    = Ok (s, {| tabsTotal := safe_int (dict_get m "tabsTotal" JNull) 0;
                thinTabs := safe_int (dict_get m "thinTabs" JNull) 0;
                noUpdateTabs := safe_int (dict_get m "noUpdateTabs" JNull) 0;
                rssErrors := safe_int (dict_get m "rssErrors" JNull) 0;
                aiStrictRate := ai_rate;
                offTopicRate := off_rate;
                dupRate := dup_rate;
                hostCount := n;
                freshnessPenalty := p |})
    /\ pct (safe_int (dict_get m "aiStrictCount" JNull) 0)
           (safe_int (dict_get m "pickedItemsTotal" JNull) 0) = Ok ai_rate
    /\ pct (safe_int (dict_get m "offTopicCount" JNull) 0)
           (safe_int (dict_get m "pickedItemsTotal" JNull) 0) = Ok off_rate
    /\ pct (safe_int (dict_get m "dupCount" JNull) 0)
           (Z.max 1 (safe_int (dict_get m "pickedItemsTotal" JNull) 0))
       = Ok dup_rate.
Proof.
  intros Hhost Hpen. unfold score_day. rewrite Hhost, Hpen. cbn [rbind].
  destruct (pct_returns (safe_int (dict_get m "aiStrictCount" JNull) 0)
              (safe_int (dict_get m "pickedItemsTotal" JNull) 0)) as (fa & Ha).
  destruct (pct_returns (safe_int (dict_get m "offTopicCount" JNull) 0)
              (safe_int (dict_get m "pickedItemsTotal" JNull) 0)) as (fo & Ho).
  destruct (pct_returns (safe_int (dict_get m "dupCount" JNull) 0)
              (Z.max 1 (safe_int (dict_get m "pickedItemsTotal" JNull) 0)))
    as (fd & Hd).
  rewrite Ha, Ho, Hd. cbn [rbind].
  destruct (s_tabs_returns Wt
              (safe_int (dict_get m "thinTabs" JNull) 0)
              (safe_int (dict_get m "noUpdateTabs" JNull) 0)
              (safe_int (dict_get m "tabsTotal" JNull) 0)) as (f2 & ->).
  destruct (s_rss_returns Wt (safe_int (dict_get m "rssErrors" JNull) 0))
    as (f3 & ->).
  destruct (s_off_returns Wt fo) as (f6 & ->).
  destruct (s_dup_returns Wt fd) as (f7 & ->).
  destruct (s_hosts_returns Wt n) as (f8 & ->).
  cbn [rbind]. eexists _, fa, fo, fd. repeat split; reflexivity.
Qed.






(** ** The order on floats and [max] *)

Lemma flt_trans (a b c : pyfloat) :
  flt a b = true -> flt b c = true -> flt a c = true.
Proof.
  destruct a as [x | | |], b as [y | | |], c as [z | | |]; simpl;
    try discriminate; try reflexivity.
  rewrite !Qltb_lt. apply Qlt_trans.
Qed.

(** Without [nan] in the middle, "not smaller" is transitive as well. *)
Lemma flt_neg_trans (a b c : pyfloat) :
  b <> NaN -> flt a b = false -> flt b c = false -> flt a c = false.
Proof.
  destruct a as [x | | |], b as [y | | |], c as [z | | |]; simpl;
    try discriminate; try reflexivity; try congruence.
  intros _. rewrite !Qltb_ge. intros H1 H2. apply (Qle_trans _ y); assumption.
Qed.

Lemma fgt_not_nan (a c : pyfloat) : fgt a c = true -> a <> NaN.
Proof. intros H ->. destruct c; discriminate. Qed.

(** The fold behind [max(l)] returns an element of the list that no
    element exceeds. *)
Lemma fold_max_spec (t : list pyfloat) (h : pyfloat) :
  Forall (fun x => x <> NaN) (h :: t) ->
  In (fold_left py_max2 t h) (h :: t)
  /\ forall x, In x (h :: t) -> flt (fold_left py_max2 t h) x = false.
Proof.
  revert h. induction t as [| b t IH]; intros h Hnn.
  - simpl. split; [left; reflexivity |].
    intros x [<- | []]. destruct h; simpl; try reflexivity.
    apply Qltb_ge. apply Qle_refl.
  - apply Forall_cons_iff in Hnn as [Hh Hnn].
    pose proof Hnn as Hbt. apply Forall_cons_iff in Hnn as [Hb Ht].
    cbn [fold_left].
    replace (py_max2 h b) with (if flt h b then b else h) by reflexivity.
    destruct (flt h b) eqn:E.
    + destruct (IH b Hbt) as [Hin Hmax]. split.
      * right. exact Hin.
      * intros x [<- | Hx]; [| apply Hmax; exact Hx].
        destruct (flt (fold_left py_max2 t b) h) eqn:E2; [| reflexivity].
        rewrite <- (Hmax b (or_introl eq_refl)).
        symmetry. apply (flt_trans _ h); assumption.
    + assert (Hht : Forall (fun x => x <> NaN) (h :: t))
        by (apply Forall_cons_iff; split; assumption).
      destruct (IH h Hht) as [Hin Hmax]. split.
      * destruct Hin as [<- | Hin]; [left; reflexivity | right; right; exact Hin].
      * intros x [<- | [<- | Hx]].
        -- apply Hmax. left. reflexivity.
        -- apply (flt_neg_trans _ h); [exact Hh | | exact E].
           apply Hmax. left. reflexivity.
        -- apply Hmax. right. exact Hx.
Qed.

(** ** The freshness penalty *)


(** The penalty of a worst age above 24 hours. *)
Lemma stale_penalty (worst : pyfloat) :
  fgt worst (float_of_int 24) = true ->
  exists x c,
    truediv (fsub worst (float_of_int 24)) (float_of_int 24) = Ok x
    /\ clamp01 x = Fin c
    /\ match worst with
       | Fin w => c == Qmax 0 (Qmin 1 ((w - 24) / 24))
       | _ => c == 1
       end.
Proof.
  destruct worst as [w | | |]; simpl; try discriminate; intros Hw.
  - destruct (denotes_truediv (fsub (Fin w) (float_of_int 24)) (float_of_int 24)
                (w - 24) 24) as (x & Hx & Hd).
    + apply (denotes_fsub (Fin w) (float_of_int 24) w 24); simpl; reflexivity.
    + simpl. reflexivity.
    + discriminate.
    + apply clamp01_denotes in Hd. apply denotes_inv in Hd as (c & Hc & Hcv).
      exists x, c. split; [exact Hx |]. split; [exact Hc | exact Hcv].
  - exists PInf, 1. repeat split; reflexivity.
Qed.



(** ** The diagnostics of a returned score *)

(** What [score_day] returns next to the score. *)
Lemma score_day_diag (Wt : Weights) (m : dict) (s : pyfloat) (dg : diag) :
  score_day Wt m = Ok (s, dg) ->
  tabsTotal dg = safe_int (dict_get m "tabsTotal" JNull) 0
  /\ thinTabs dg = safe_int (dict_get m "thinTabs" JNull) 0
  /\ noUpdateTabs dg = safe_int (dict_get m "noUpdateTabs" JNull) 0
  /\ rssErrors dg = safe_int (dict_get m "rssErrors" JNull) 0
  /\ pct (safe_int (dict_get m "aiStrictCount" JNull) 0)
         (safe_int (dict_get m "pickedItemsTotal" JNull) 0)
     = Ok (aiStrictRate dg)
  /\ pct (safe_int (dict_get m "offTopicCount" JNull) 0)
         (safe_int (dict_get m "pickedItemsTotal" JNull) 0)
     = Ok (offTopicRate dg)
  /\ pct (safe_int (dict_get m "dupCount" JNull) 0)
         (Z.max 1 (safe_int (dict_get m "pickedItemsTotal" JNull) 0))
     = Ok (dupRate dg)
  /\ host_count m = Ok (hostCount dg)
  /\ freshness_penalty m = Ok (freshnessPenalty dg).
Proof.
  unfold score_day. intros H.
  apply rbind_Ok in H as (hosts & Hhosts & H).
  apply rbind_Ok in H as (ai_rate & Hai & H).
  apply rbind_Ok in H as (off_rate & Hoff & H).
  apply rbind_Ok in H as (dup_rate & Hdup & H).
  apply rbind_Ok in H as (v_tabs & _ & H).
  apply rbind_Ok in H as (v_rss & _ & H).
  apply rbind_Ok in H as (pen & _ & H).
  apply rbind_Ok in H as (v_off & _ & H).
  apply rbind_Ok in H as (v_dup & _ & H).
  apply rbind_Ok in H as (v_hosts & _ & H).
  apply rbind_Ok in H as (pen' & Hpen & H).
  injection H as _ <-. cbn. repeat split; assumption.
Qed.

Lemma Qred_inject_Z (z : Z) : Qred (inject_Z z) = inject_Z z.
Proof.
  apply Qred_identity. simpl. apply Z.gcd_1_r.
Qed.

(** An integer divided by the integer 1 is that integer, as a float. *)
Lemma int_truediv_one (n : Z) : int_truediv n 1 = Ok (float_of_int n).
Proof.
  unfold int_truediv, truediv, float_of_int, fin.
  change (Qeq_bool (inject_Z 1) 0) with false. cbv iota.
  f_equal. f_equal. transitivity (Qred (inject_Z n)).
  - apply Qred_complete. change (inject_Z 1) with 1. field.
  - apply Qred_inject_Z.
Qed.

(** C4: the strict-AI and off-topic rates are 0.0 whenever
    [pickedItemsTotal <= 0], and [pct] returns 0.0 without raising for every
    denominator that is not positive; the duplication rate is
    [dupCount / max(1, pickedItemsTotal)], which is [dupCount] itself when
    [pickedItemsTotal] is 0. *)
Theorem rates_on_empty_pick (Wt : Weights) (m : dict) (s : pyfloat) (dg : diag) :
  score_day Wt m = Ok (s, dg) ->
  ((safe_int (dict_get m "pickedItemsTotal" JNull) 0 <= 0)%Z ->
   aiStrictRate dg = Fin 0 /\ offTopicRate dg = Fin 0)
  /\ denotes (dupRate dg)
       (inject_Z (safe_int (dict_get m "dupCount" JNull) 0)
        / inject_Z (Z.max 1 (safe_int (dict_get m "pickedItemsTotal" JNull) 0)))
  /\ (safe_int (dict_get m "pickedItemsTotal" JNull) 0 = 0%Z ->
      dupRate dg = float_of_int (safe_int (dict_get m "dupCount" JNull) 0))
  /\ (forall n d : Z, (d <= 0)%Z -> pct n d = Ok (Fin 0)).
Proof.
  intros H.
  destruct (score_day_diag Wt m s dg H)
    as (_ & _ & _ & _ & Hai & Hoff & Hdup & _).
  split; [| split; [| split]].
  - intros Hp. rewrite (pct_nonpositive _ _ Hp) in Hai.
    rewrite (pct_nonpositive _ _ Hp) in Hoff. split; congruence.
  - destruct (pct_denotes (safe_int (dict_get m "dupCount" JNull) 0)
                (Z.max 1 (safe_int (dict_get m "pickedItemsTotal" JNull) 0)))
      as (f & Hf & Hd).
    replace (Z.max 1 (safe_int (dict_get m "pickedItemsTotal" JNull) 0) >? 0)%Z
      with true in Hd by lia.
    congruence.
  - intros Hp. rewrite Hp in Hdup.
    change (pct (safe_int (dict_get m "dupCount" JNull) 0) (Z.max 1 0))
      with (int_truediv (safe_int (dict_get m "dupCount" JNull) 0) 1) in Hdup.
    rewrite int_truediv_one in Hdup. congruence.
  - apply pct_nonpositive.
Qed.

Lemma score_day_empty_pick : score_day W empty_pick = Ok (Fin 31, empty_pick_diag).
Proof. vm_compute. reflexivity. Defined.

Lemma rates_on_empty_pick_witness :
  score_day W empty_pick = Ok (Fin 31, empty_pick_diag)
  /\ aiStrictRate empty_pick_diag = Fin 0
  /\ offTopicRate empty_pick_diag = Fin 0
  /\ dupRate empty_pick_diag = float_of_int 5.
Proof.
  pose proof (rates_on_empty_pick W empty_pick (Fin 31) empty_pick_diag
                score_day_empty_pick) as (H0 & _ & H1 & _).
  split; [exact score_day_empty_pick |].
  split; [exact (proj1 (H0 ltac:(vm_compute; discriminate))) |].
  split; [exact (proj2 (H0 ltac:(vm_compute; discriminate))) |].
  exact (H1 eq_refl).
Defined.

(** ** The derived host count *)

Lemma mapM_app {A B : Type} (f : A -> result B) (l1 l2 : list A)
    (r1 r2 : list B) :
  mapM f l1 = Ok r1 -> mapM f l2 = Ok r2 ->
  mapM f (l1 ++ l2)%list = Ok (r1 ++ r2)%list.
Proof.
  revert r1. induction l1 as [| a l1 IH]; simpl; intros r1 H1 H2.
  - injection H1 as <-. exact H2.
  - apply rbind_Ok in H1 as (b & Hb & H1).
    apply rbind_Ok in H1 as (bs & Hbs & H1). injection H1 as <-.
    rewrite Hb. simpl. rewrite (IH bs Hbs H2). reflexivity.
Qed.

Lemma mapM_app_inv {A B : Type} (f : A -> result B) (l1 l2 : list A)
    (r : list B) :
  mapM f (l1 ++ l2)%list = Ok r ->
  exists r1 r2, mapM f l1 = Ok r1 /\ mapM f l2 = Ok r2 /\ r = (r1 ++ r2)%list.
Proof.
  revert r. induction l1 as [| a l1 IH]; simpl; intros r H.
  - exists [], r. auto.
  - apply rbind_Ok in H as (b & Hb & H).
    apply rbind_Ok in H as (bs & Hbs & H). injection H as <-.
    destruct (IH bs Hbs) as (r1 & r2 & H1 & H2 & ->).
    exists (b :: r1), r2. rewrite Hb, H1. simpl. auto.
Qed.

(** The inner loop adds the keys of the non-empty sources, and returns
    exactly when every entry is a dict with a hashable source. *)
Lemma add_sources_spec (ss : list json) (hosts hosts' : gset hkey) :
  for_each add_source ss hosts = Ok hosts'
  <-> exists vs ks,
        mapM (fun s => py_get s "source" JNull) ss = Ok vs
        /\ mapM py_hash (List.filter py_bool vs) = Ok ks
        /\ hosts' = list_to_set ks ∪ hosts.
Proof.
  revert hosts. induction ss as [| s ss IH]; intros hosts; simpl.
  - split.
    + intros H. injection H as <-. exists [], []. simpl.
      repeat split. set_solver.
    + intros (vs & ks & Hvs & Hks & ->). injection Hvs as <-.
      simpl in Hks. injection Hks as <-. f_equal. set_solver.
  - split.
    + intros H. apply rbind_Ok in H as (h1 & Hs & H).
      apply IH in H as (vs & ks & Hvs & Hks & ->).
      unfold add_source in Hs. apply rbind_Ok in Hs as (v & Hv & Hs).
      rewrite Hv, Hvs. cbn [rbind]. destruct (py_bool v) eqn:Eb.
      * apply rbind_Ok in Hs as (k & Hk & Hs). injection Hs as <-.
        exists (v :: vs), (k :: ks). cbn [List.filter]. rewrite Eb.
        cbn [mapM]. rewrite Hk, Hks. repeat split. set_solver.
      * injection Hs as <-. exists (v :: vs), ks. cbn [List.filter].
        rewrite Eb. repeat split. exact Hks.
    + intros (vs & ks & Hvs & Hks & ->).
      apply rbind_Ok in Hvs as (v & Hv & Hvs).
      apply rbind_Ok in Hvs as (vs' & Hvs' & Hvs). injection Hvs as <-.
      unfold add_source at 1. rewrite Hv. cbn [rbind List.filter] in *.
      destruct (py_bool v) eqn:Eb.
      * cbn [mapM] in Hks. apply rbind_Ok in Hks as (k & Hk & Hks).
        apply rbind_Ok in Hks as (ks' & Hks' & Hks). injection Hks as <-.
        rewrite Hk. cbn [rbind]. apply IH.
        exists vs', ks'. repeat split; try assumption. set_solver.
      * apply IH. exists vs', ks. repeat split; assumption.
Qed.

Lemma add_tab_sources_spec (t : json) (hosts hosts' : gset hkey) :
  add_tab_sources hosts t = Ok hosts'
  <-> exists vs ks,
        tab_sources t = Ok vs /\ mapM py_hash vs = Ok ks
        /\ hosts' = list_to_set ks ∪ hosts.
Proof.
  unfold add_tab_sources, tab_sources.
  destruct (py_get t "sources" (JList [])) as [srcs | e]; cbn [rbind].
  2: { split; [discriminate | intros (? & ? & ? & _); discriminate]. }
  destruct (py_iter srcs) as [ss | e]; cbn [rbind].
  2: { split; [discriminate | intros (? & ? & ? & _); discriminate]. }
  rewrite add_sources_spec. split.
  - intros (vs & ks & Hvs & Hks & ->). rewrite Hvs. cbn [rbind]. eauto.
  - intros (vs & ks & Hvs & Hks & ->).
    apply rbind_Ok in Hvs as (vs0 & Hvs0 & Hvs). injection Hvs as <-. eauto.
Qed.

Lemma add_all_sources_spec (ts : list json) (hosts hosts' : gset hkey) :
  for_each add_tab_sources ts hosts = Ok hosts'
  <-> exists vss ks,
        mapM tab_sources ts = Ok vss
        /\ mapM py_hash (List.concat vss) = Ok ks
        /\ hosts' = list_to_set ks ∪ hosts.
Proof.
  revert hosts. induction ts as [| t ts IH]; intros hosts; simpl.
  - split.
    + intros H. injection H as <-. exists [], []. simpl.
      repeat split. set_solver.
    + intros (vss & ks & Hvss & Hks & ->). injection Hvss as <-.
      simpl in Hks. injection Hks as <-. f_equal. set_solver.
  - split.
    + intros H. apply rbind_Ok in H as (h1 & Ht & H).
      apply IH in H as (vss & ks & Hvss & Hks & ->).
      apply add_tab_sources_spec in Ht as (vs & ks1 & Hvs & Hks1 & ->).
      exists (vs :: vss), (ks1 ++ ks)%list. rewrite Hvs, Hvss. cbn [rbind].
      split; [reflexivity |]. split.
      * cbn [List.concat]. apply mapM_app; assumption.
      * rewrite list_to_set_app_L. set_solver.
    + intros (vss & ks & Hvss & Hks & ->).
      apply rbind_Ok in Hvss as (vs & Hvs & Hvss).
      apply rbind_Ok in Hvss as (vss' & Hvss' & Hvss). injection Hvss as <-.
      cbn [List.concat] in Hks.
      apply mapM_app_inv in Hks as (ks1 & ks2 & Hks1 & Hks2 & ->).
      assert (Ht : add_tab_sources hosts t = Ok (list_to_set ks1 ∪ hosts)).
      { apply add_tab_sources_spec. eauto. }
      rewrite Ht. cbn [rbind]. apply IH. exists vss', ks2.
      split; [assumption |]. split; [assumption |].
      rewrite list_to_set_app_L. set_solver.
Qed.

(** [collect_hosts] returns exactly when the identifiers can be collected
    and hashed, and then counts the distinct ones. *)
Lemma collect_hosts_spec (m : dict) (n : Z) :
  collect_hosts m = Ok n
  <-> exists vs ks,
        source_ids m = Ok vs /\ mapM py_hash vs = Ok ks
        /\ n = distinct_count ks.
Proof.
  unfold collect_hosts, source_ids, distinct_count.
  destruct (py_iter (dict_get m "tabs" (JList []))) as [ts | e]; cbn [rbind].
  2: { split; [discriminate | intros (? & ? & ? & _); discriminate]. }
  split.
  - intros H. apply rbind_Ok in H as (hosts & Hh & H). injection H as <-.
    apply add_all_sources_spec in Hh as (vss & ks & Hvss & Hks & ->).
    rewrite Hvss. cbn [rbind]. exists (List.concat vss), ks.
    repeat split; [assumption |]. do 2 f_equal. set_solver.
  - intros (vs & ks & Hvs & Hks & ->).
    apply rbind_Ok in Hvs as (vss & Hvss & Hvs). injection Hvs as <-.
    assert (Hh : for_each add_tab_sources ts ∅ = Ok (list_to_set ks ∪ ∅)).
    { apply add_all_sources_spec. eauto. }
    rewrite Hh. cbn [rbind]. do 3 f_equal. set_solver.
Qed.

(** C5: when the [hostCount] field is absent, malformed or zero, the host
    count of the diagnostics is the number of distinct non-empty source
    identifiers found across the [sources] of all tabs. *)
Theorem derived_host_count (Wt : Weights) (m : dict) (s : pyfloat) (dg : diag) :
  safe_int (dict_get m "hostCount" JNull) 0 = 0%Z ->
  score_day Wt m = Ok (s, dg) ->
  exists vs ks,
    source_ids m = Ok vs /\ mapM py_hash vs = Ok ks
    /\ hostCount dg = distinct_count ks.
Proof.
  intros H0 H.
  destruct (score_day_diag Wt m s dg H) as (_ & _ & _ & _ & _ & _ & _ & Hh & _).
  unfold host_count in Hh. rewrite H0 in Hh. cbn in Hh.
  apply collect_hosts_spec. exact Hh.
Qed.

Lemma derived_host_count_witness :
  score_day W three_sources = Ok (Fin 43, three_sources_diag)
  /\ source_ids three_sources = Ok [JStr "a.com"; JStr "b.com"; JStr "a.com"]
  /\ exists vs ks,
       source_ids three_sources = Ok vs /\ mapM py_hash vs = Ok ks
       /\ 2%Z = distinct_count ks.
Proof.
  assert (H : score_day W three_sources = Ok (Fin 43, three_sources_diag))
    by (vm_compute; reflexivity).
  split; [exact H |]. split; [reflexivity |].
  exact (derived_host_count W three_sources (Fin 43) three_sources_diag
           eq_refl H).
Defined.

(** ** The run-success term *)





(** ** The duplication rate *)

(** C10: the [dupRate] of the diagnostics is the raw ratio; with no picked
    item and five duplicates it is 5.0, above 1.0; the duplication term of
    the score is clamped and stays between 0 and its weight whatever the
    rate, and is 0 for that record. *)
Theorem dup_rate_not_clamped (Wt : Weights) (dup_rate : pyfloat) :
  0 <= duplication_penalty Wt ->
  (exists f q, s_dup Wt dup_rate = Ok f
               /\ denotes f q /\ 0 <= q <= duplication_penalty Wt)
  /\ (exists s dg f,
        score_day Wt empty_pick = Ok (s, dg)
        /\ dupRate dg = Fin 5 /\ ~ 5 <= 1
        /\ s_dup Wt (dupRate dg) = Ok f /\ denotes f 0).
Proof.
  intros Hw. split; [apply s_dup_range; exact Hw |].
  destruct (score_day_returns_when Wt empty_pick 0%Z (Fin 0))
    as (s & fa & fo & fd & Hs & _ & _ & Hd); [reflexivity | reflexivity |].
  vm_compute in Hd. injection Hd as <-.
  eexists s, _, _. split; [exact Hs |]. cbn [dupRate].
  split; [reflexivity |]. split; [intros H; vm_compute in H; congruence |].
  split; [reflexivity |].
  apply (denotes_eq _ (duplication_penalty Wt * 0)); [| ring].
  apply denotes_fmul; [apply denotes_Fin | vm_compute; reflexivity].
Qed.

Lemma dup_rate_not_clamped_witness :
  0 <= duplication_penalty W
  /\ (exists f q, s_dup W (Fin 5) = Ok f
                  /\ denotes f q /\ 0 <= q <= duplication_penalty W)
  /\ (exists s dg f,
        score_day W empty_pick = Ok (s, dg)
        /\ dupRate dg = Fin 5 /\ ~ 5 <= 1
        /\ s_dup W (dupRate dg) = Ok f /\ denotes f 0).
Proof.
  assert (Hw : 0 <= duplication_penalty W) by discriminate.
  split; [exact Hw |].
  exact (dup_rate_not_clamped W (Fin 5) Hw).
Defined.

(** ** [sorted]: order, content and stability *)

Section SortedFacts.
Context {A K : Type} (ltb : K -> K -> bool) (eqb : K -> K -> bool)
  (key : A -> K).

(** [<] never holds both ways, and a key smaller than another one is not
    equal to what the other one equals. *)
Hypothesis ltb_asym : forall a b, ltb a b = true -> ltb b a = false.
Hypothesis ltb_not_eqb :
  forall a b v, ltb a b = true -> eqb b v = true -> eqb a v = false.

Lemma sort_insert_perm (x : A) (l : list A) :
  Permutation (sort_insert ltb key x l) (x :: l).
Proof.
  induction l as [| y l IH]; simpl; [reflexivity |].
  destruct (ltb (key y) (key x)); [| reflexivity].
  rewrite IH. apply perm_swap.
Qed.

Lemma py_sorted_perm (l : list A) : Permutation (py_sorted ltb key l) l.
Proof.
  induction l as [| x l IH]; simpl; [reflexivity |].
  rewrite sort_insert_perm. apply perm_skip. exact IH.
Qed.

Lemma sort_insert_hd (y x : A) (l : list A) :
  ltb (key y) (key x) = true -> HdRel (not_after ltb key) y l ->
  HdRel (not_after ltb key) y (sort_insert ltb key x l).
Proof.
  intros Hyx Hhd. destruct l as [| z l]; simpl.
  - constructor. apply ltb_asym. exact Hyx.
  - destruct (ltb (key z) (key x)).
    + constructor. inversion Hhd; assumption.
    + constructor. apply ltb_asym. exact Hyx.
Qed.

Lemma sort_insert_sorted (x : A) (l : list A) :
  Sorted (not_after ltb key) l -> Sorted (not_after ltb key) (sort_insert ltb key x l).
Proof.
  induction 1 as [| y l Hs IH Hhd]; simpl.
  - repeat constructor.
  - destruct (ltb (key y) (key x)) eqn:E.
    + constructor; [exact IH | apply sort_insert_hd; assumption].
    + constructor; [constructor; assumption |]. constructor. exact E.
Qed.

Lemma py_sorted_sorted (l : list A) : Sorted (not_after ltb key) (py_sorted ltb key l).
Proof.
  induction l as [| x l IH]; simpl; [constructor |].
  apply sort_insert_sorted. exact IH.
Qed.

Lemma sort_insert_with_key (v : K) (x : A) (l : list A) :
  with_key eqb key v (sort_insert ltb key x l) = with_key eqb key v (x :: l).
Proof.
  unfold with_key. induction l as [| y l IH]; simpl; [reflexivity |].
  destruct (ltb (key y) (key x)) eqn:E; [| reflexivity].
  simpl. rewrite IH. simpl.
  destruct (eqb (key x) v) eqn:Ex; [| reflexivity].
  rewrite (ltb_not_eqb _ _ _ E Ex). reflexivity.
Qed.

(** Stability: elements with equal keys come out in the order they came in. *)
Lemma py_sorted_stable (v : K) (l : list A) :
  with_key eqb key v (py_sorted ltb key l) = with_key eqb key v l.
Proof.
  induction l as [| x l IH]; simpl; [reflexivity |].
  rewrite sort_insert_with_key. unfold with_key in *. simpl.
  rewrite IH. reflexivity.
Qed.

End SortedFacts.

Lemma flt_asym (a b : pyfloat) : flt a b = true -> flt b a = false.
Proof.
  destruct a as [x | | |], b as [y | | |]; simpl; try discriminate;
    try reflexivity.
  rewrite Qltb_lt, Qltb_ge. apply Qlt_le_weak.
Qed.

Lemma flt_not_feqb (a b v : pyfloat) :
  flt a b = true -> feqb b v = true -> feqb a v = false.
Proof.
  destruct a as [x | | |], b as [y | | |], v as [z | | |]; simpl;
    try discriminate; try reflexivity.
  rewrite Qltb_lt. intros Hlt Heq. apply Qeq_bool_iff in Heq.
  destruct (Qeq_bool x z) eqn:E; [| reflexivity].
  apply Qeq_bool_iff in E. lra.
Qed.

(** ** Slices *)

Lemma slice_to_take {A : Type} (l : list A) (n : Z) :
  (0 <= n)%Z -> slice_to l n = take (Z.to_nat n) l.
Proof.
  intros Hn. unfold slice_to, slice_index.
  destruct (n <? 0)%Z eqn:E; [lia |].
  destruct (Z.le_ge_cases n (Z.of_nat (length l))) as [Hle | Hge].
  - rewrite Z.min_l by lia. reflexivity.
  - rewrite Z.min_r by lia. rewrite Nat2Z.id.
    rewrite !take_ge by lia. reflexivity.
Qed.

Lemma slice_from_all {A : Type} (l : list A) (k : Z) :
  (0 < k)%Z -> (Z.of_nat (length l) <= k)%Z -> slice_from l (- k) = l.
Proof.
  intros Hk Hlen. unfold slice_from, slice_index.
  destruct (- k <? 0)%Z eqn:E; [| lia].
  rewrite Z.max_l by lia. reflexivity.
Qed.

Lemma slice_from_last {A : Type} (l : list A) (k : Z) :
  (0 < k)%Z -> (k <= Z.of_nat (length l))%Z ->
  slice_from l (- k) = drop (length l - Z.to_nat k) l
  /\ length (slice_from l (- k)) = Z.to_nat k.
Proof.
  intros Hk Hlen. unfold slice_from, slice_index.
  destruct (- k <? 0)%Z eqn:E; [| lia].
  rewrite Z.max_r by lia.
  replace (Z.to_nat (Z.of_nat (length l) + - k)) with (length l - Z.to_nat k)%nat
    by lia.
  split; [reflexivity |]. rewrite length_drop. lia.
Qed.

(** ** The worst days *)

Lemma StronglySorted_filter {A : Type} (R : A -> A -> Prop) (P : A -> bool)
    (l : list A) :
  StronglySorted R l -> StronglySorted R (List.filter P l).
Proof.
  induction 1 as [| a l Hs IH Hall]; simpl; [constructor |].
  destruct (P a); [| exact IH]. constructor; [exact IH |].
  apply List.Forall_forall. intros x Hx. apply List.filter_In in Hx as [Hx _].
  revert x Hx. apply List.Forall_forall. exact Hall.
Qed.

Lemma StronglySorted_app_l {A : Type} (R : A -> A -> Prop) (l1 l2 : list A) :
  StronglySorted R (l1 ++ l2) -> StronglySorted R l1.
Proof.
  induction l1 as [| a l1 IH]; simpl; intros H; [constructor |].
  apply StronglySorted_inv in H as [Hs Hall]. constructor; [apply IH, Hs |].
  apply List.Forall_app in Hall as [Hall _]. exact Hall.
Qed.

Lemma worst_days_take (n : Z) (rows : list row) :
  (0 <= n)%Z ->
  worst_days n rows = take (Z.to_nat n) (py_sorted flt score rows).
Proof. intros Hn. unfold worst_days. apply slice_to_take. exact Hn. Qed.

(** Sorting by score leaves the rows of a given score in their order. *)
Lemma scoring_sorted (v : pyfloat) (rows : list row) :
  scoring v (py_sorted flt score rows) = scoring v rows.
Proof. apply py_sorted_stable. exact flt_not_feqb. Qed.

(** The worst days of a given score are the first rows of that score. *)
Lemma scoring_worst_prefix (n : Z) (v : pyfloat) (rows : list row) :
  (0 <= n)%Z ->
  exists rest, scoring v rows = (scoring v (worst_days n rows) ++ rest)%list.
Proof.
  intros Hn.
  exists (scoring v (drop (Z.to_nat n) (py_sorted flt score rows))).
  rewrite <- scoring_sorted, (worst_days_take n rows Hn).
  unfold scoring, with_key.
  rewrite <- List.filter_app, take_drop. reflexivity.
Qed.

Lemma scoring_worst_ascending (n : Z) (v : pyfloat) (rows : list row) :
  (0 <= n)%Z -> date_ascending rows ->
  date_ascending (scoring v (worst_days n rows)).
Proof.
  intros Hn Hdate. destruct (scoring_worst_prefix n v rows Hn) as (rest & Hrest).
  apply (StronglySorted_app_l _ _ rest). rewrite <- Hrest.
  apply StronglySorted_filter. exact Hdate.
Qed.

(** C6: the worst [n] days are the first [n] rows of the rows sorted by
    ascending score, a sort that keeps all the rows and leaves rows of equal
    score in the order they had; in a collection in ascending order of date,
    the worst days of equal score therefore come in ascending order of
    date. *)
Theorem worst_days_stable (n : Z) (rows : list row) :
  (0 <= n)%Z ->
  date_ascending rows ->
  worst_days n rows = take (Z.to_nat n) (py_sorted flt score rows)
  /\ Permutation (py_sorted flt score rows) rows
  /\ Sorted (not_after flt score) (py_sorted flt score rows)
  /\ (forall v, scoring v (py_sorted flt score rows) = scoring v rows)
  /\ (forall v, exists rest,
        scoring v rows = (scoring v (worst_days n rows) ++ rest)%list)
  /\ (forall v, date_ascending (scoring v (worst_days n rows))).
Proof.
  intros Hn Hdate.
  split; [apply worst_days_take; exact Hn |].
  split; [apply py_sorted_perm |].
  split; [apply py_sorted_sorted; exact flt_asym |].
  split; [intros v; apply scoring_sorted |].
  split; intros v.
  - apply scoring_worst_prefix. exact Hn.
  - apply scoring_worst_ascending; assumption.
Qed.

Lemma four_days_ascending : date_ascending four_days.
Proof.
  unfold date_ascending, four_days.
  repeat (constructor; [| repeat constructor]). constructor.
Defined.

Lemma worst_days_stable_witness :
  worst_days 2 four_days = [day "2024-01-01" 10; day "2024-01-03" 10]
  /\ worst_days 3 four_days
     = [day "2024-01-01" 10; day "2024-01-03" 10; day "2024-01-04" 50]
  /\ date_ascending (scoring (Fin 10) (worst_days 2 four_days)).
Proof.
  pose proof (worst_days_stable 2 four_days ltac:(discriminate)
                four_days_ascending) as (H2 & _ & _ & _ & _ & Hd).
  pose proof (worst_days_stable 3 four_days ltac:(discriminate)
                four_days_ascending) as (H3 & _).
  split; [rewrite H2; reflexivity |].
  split; [rewrite H3; reflexivity |].
  exact (Hd (Fin 10)).
Defined.

(** ** The trailing average *)

Lemma fold_fadd_denotes (qs : list Q) (acc : pyfloat) (a : Q) :
  denotes acc a ->
  denotes (fold_left fadd (map Fin qs) acc) (a + Qsum qs).
Proof.
  revert acc a. induction qs as [| q qs IH]; intros acc a Ha; simpl.
  - apply (denotes_eq _ a); [exact Ha | ring].
  - apply (denotes_eq _ (a + q + Qsum qs)); [| unfold Qsum; ring].
    apply IH. apply denotes_fadd; [exact Ha | apply denotes_Fin].
Qed.

(** On a non-empty list of finite scores [avg] returns their mean. *)
Lemma avg_mean (qs : list Q) :
  qs <> [] -> exists a, avg (map Fin qs) = Ok a /\ denotes a (mean qs).
Proof.
  intros Hne. destruct qs as [| q qs]; [contradiction |].
  unfold avg. cbn [map]. rewrite <- (map_cons Fin).
  destruct (denotes_truediv (py_sum (map Fin (q :: qs)))
              (float_of_int (Z.of_nat (length (map Fin (q :: qs)))))
              (Qsum (q :: qs)) (inject_Z (Z.of_nat (length (q :: qs)))))
    as (a & Ha & Hd).
  - apply (denotes_eq _ (0 + Qsum (q :: qs))); [| ring].
    apply fold_fadd_denotes. apply denotes_int.
  - rewrite length_map. apply denotes_int.
  - apply inject_Z_nonzero. simpl. lia.
  - exists a. split; [exact Ha | exact Hd].
Qed.

Lemma finite_scores_length (rows : list row) (qs : list Q) :
  map score rows = map Fin qs -> length qs = length rows.
Proof.
  intros H. rewrite <- (length_map Fin qs), <- H, length_map. reflexivity.
Qed.

(** With at most [k] days the window holds all of them. *)
Lemma last_days_few (k : Z) (rows : list row) (qs : list Q) :
  (0 < k)%Z -> rows <> [] -> map score rows = map Fin qs ->
  (Z.of_nat (length rows) <= k)%Z ->
  exists a, avg (map score (last_days k rows)) = Ok a /\ denotes a (mean qs).
Proof.
  intros Hk Hne Hqs Hfew. unfold last_days.
  rewrite slice_from_all by assumption.
  rewrite Hqs. apply avg_mean. intros ->. destruct rows; [congruence |].
  discriminate Hqs.
Qed.

(** With at least [k] days the window holds the last [k]. *)
Lemma last_days_many (k : Z) (rows : list row) (qs : list Q) :
  (0 < k)%Z -> map score rows = map Fin qs ->
  (k <= Z.of_nat (length rows))%Z ->
  length (last_days k rows) = Z.to_nat k
  /\ last_days k rows = drop (length rows - Z.to_nat k) rows
  /\ exists a, avg (map score (last_days k rows)) = Ok a
               /\ denotes a (mean (drop (length qs - Z.to_nat k) qs)).
Proof.
  intros Hk Hqs Hmany. unfold last_days.
  pose proof (finite_scores_length rows qs Hqs) as Hlen.
  destruct (slice_from_last rows k Hk Hmany) as [Hdrop Hl].
  split; [exact Hl |]. split; [exact Hdrop |].
  rewrite Hdrop, <- List.skipn_map, Hlen, Hqs, List.skipn_map.
  apply avg_mean. intros H.
  assert (Hz : length (drop (length rows - Z.to_nat k) qs) = 0%nat)
    by (rewrite H; reflexivity).
  rewrite length_drop in Hz. lia.
Qed.



(** ** The outcome of a run *)

Lemma avg_returns (vals : list pyfloat) : exists a, avg vals = Ok a.
Proof.
  destruct vals as [| v vals]; [simpl; eauto |].
  unfold avg. apply truediv_nonzero_returns.
  destruct (Qeq_bool _ 0) eqn:E; [| reflexivity].
  apply Qeq_bool_eq in E. apply inject_Z_nonzero in E; [contradiction |].
  simpl. lia.
Qed.

Lemma py_sorted_not_nil {A K : Type} (ltb : K -> K -> bool) (key : A -> K)
    (l : list A) :
  l <> [] -> py_sorted ltb key l <> [].
Proof.
  intros Hne H. apply Hne. apply Permutation_nil.
  rewrite <- H. apply py_sorted_perm.
Qed.

Lemma py_last_returns {A : Type} (l : list A) :
  l <> [] -> exists x, py_last l = Ok x /\ In x l.
Proof.
  intros Hne. unfold py_last. destruct (List.rev l) as [| x r] eqn:E.
  - exfalso. apply Hne. rewrite <- (List.rev_involutive l), E. reflexivity.
  - exists x. split; [reflexivity |]. apply List.in_rev. rewrite E. left.
    reflexivity.
Qed.

Lemma add_file_skipped (Wt : Weights) (rows : list row)
    (file : string * option json) :
  skipped file -> add_file Wt rows file = Ok rows.
Proof.
  unfold add_file. intros [H | [H | [H | (v & H & Hv)]]]; rewrite H.
  - reflexivity.
  - destruct (snd file); reflexivity.
  - destruct (parse_date_from_filename (fst file)); reflexivity.
  - destruct (parse_date_from_filename (fst file)); [| reflexivity].
    rewrite Hv, andb_false_r. reflexivity.
Qed.

Lemma scored_rows_skipped (Wt : Weights) (files : list (string * option json)) :
  Forall skipped files -> scored_rows Wt files = Ok [].
Proof.
  unfold scored_rows. generalize (@nil row).
  induction 1 as [| f files Hf _ IH]; simpl; [reflexivity |].
  rewrite (add_file_skipped Wt l f Hf). simpl. exact IH.
Qed.

(** C7: when no day could be scored the run ends with the message that no
    metrics were found, an outcome that carries no latest entry, no average
    and no list of worst days; with at least one scored day it ends with
    the summary of the rows sorted by date. *)
Theorem no_metrics_outcome (Wt : Weights) (files : list (string * option json))
    (rows : list row) :
  scored_rows Wt files = Ok rows ->
  (rows = [] -> main Wt files = Ok NoMetricsFound)
  /\ (rows <> [] ->
      exists latest score7,
        main Wt files
        = Ok (Summary latest score7
                (worst_days 3 (py_sorted String.ltb date rows))
                (py_sorted String.ltb date rows))
        /\ In latest rows)
  /\ (main Wt files = Ok NoMetricsFound <-> rows = [])
  /\ (forall latest score7 worst rows',
        NoMetricsFound <> Summary latest score7 worst rows')
  /\ (Forall skipped files -> rows = []).
Proof.
  intros Hrows.
  assert (Hsome : rows <> [] ->
            exists latest score7,
              main Wt files
              = Ok (Summary latest score7
                      (worst_days 3 (py_sorted String.ltb date rows))
                      (py_sorted String.ltb date rows))
              /\ In latest rows).
  { intros Hne. unfold main. rewrite Hrows. cbn [rbind].
    destruct rows as [| r rows]; [contradiction |]. cbn [is_nil].
    destruct (py_last_returns (py_sorted String.ltb date (r :: rows)))
      as (latest & Hl & Hin).
    { apply py_sorted_not_nil. discriminate. }
    destruct (avg_returns
                (map score (last_days 7 (py_sorted String.ltb date (r :: rows)))))
      as (a & Ha).
    rewrite Hl. cbn [rbind]. rewrite Ha. cbn [rbind].
    exists latest, a. split; [reflexivity |].
    apply (Permutation_in latest (py_sorted_perm String.ltb date (r :: rows))).
    exact Hin. }
  split; [| split; [exact Hsome | split; [| split]]].
  - intros ->. unfold main. rewrite Hrows. reflexivity.
  - split.
    + intros Hmain. destruct rows as [| r rows]; [reflexivity |].
      destruct Hsome as (latest & a & Hs & _); [discriminate |].
      rewrite Hs in Hmain. discriminate.
    + intros ->. unfold main. rewrite Hrows. reflexivity.
  - discriminate.
  - intros Hall. rewrite (scored_rows_skipped Wt files Hall) in Hrows.
    congruence.
Qed.

Lemma no_metrics_outcome_witness :
  main W [] = Ok NoMetricsFound
  /\ main W [("metrics-2024-01-01.json", None);
             ("metrics-2024-01-02.json", Some (JDict []))]
     = Ok NoMetricsFound.
Proof.
  split.
  - exact (proj1 (no_metrics_outcome W [] [] eq_refl) eq_refl).
  - exact (proj1 (no_metrics_outcome W
                    [("metrics-2024-01-01.json", None);
                     ("metrics-2024-01-02.json", Some (JDict []))]
                    [] eq_refl) eq_refl).
Defined.

(** ** Scores are finite *)

Lemma denotes_finite (f : pyfloat) (q : Q) : denotes f q -> is_finite f.
Proof. intros H. apply denotes_inv in H as (x & -> & _). exists x. reflexivity. Qed.

Lemma fadd_finite (a b : pyfloat) : is_finite a -> is_finite b -> is_finite (fadd a b).
Proof. intros (x & ->) (y & ->). eexists. reflexivity. Qed.

Lemma clamp01_finite (a : pyfloat) : is_finite (clamp01 a).
Proof. destruct (clamp01_range a) as (c & -> & _). exists c. reflexivity. Qed.

Lemma py_round2_finite (a : pyfloat) : is_finite a -> is_finite (py_round2 a).
Proof. intros (x & ->). eexists. reflexivity. Qed.

Lemma pct_finite (n d : Z) (f : pyfloat) : pct n d = Ok f -> is_finite f.
Proof.
  intros H. destruct (pct_denotes n d) as (f' & Hf & Hd).
  rewrite H in Hf. injection Hf as <-. exact (denotes_finite _ _ Hd).
Qed.

Lemma score_day_finite (Wt : Weights) (m : dict) (s : pyfloat) (dg : diag) :
  score_day Wt m = Ok (s, dg) -> is_finite s.
Proof.
  unfold score_day. intros H.
  apply rbind_Ok in H as (hosts & _ & H).
  apply rbind_Ok in H as (ai_rate & Hai & H).
  apply rbind_Ok in H as (off_rate & _ & H).
  apply rbind_Ok in H as (dup_rate & _ & H).
  apply rbind_Ok in H as (v_tabs & Htabs & H).
  apply rbind_Ok in H as (v_rss & Hrss & H).
  apply rbind_Ok in H as (pen & Hpen & H).
  apply rbind_Ok in H as (v_off & Hoff & H).
  apply rbind_Ok in H as (v_dup & Hdup & H).
  apply rbind_Ok in H as (v_hosts & Hhosts & H).
  apply rbind_Ok in H as (pen' & _ & H).
  assert (F1 : is_finite (s_run Wt m)) by (eexists; reflexivity).
  assert (F2 : is_finite v_tabs).
  { unfold s_tabs in Htabs. apply rbind_Ok in Htabs as (p & _ & Hp).
    destruct (clamp01_finite (fsub (float_of_int 1) p)) as (c & Hc).
    rewrite Hc in Hp. injection Hp as <-. eexists. reflexivity. }
  assert (F3 : is_finite v_rss).
  { unfold s_rss in Hrss. apply rbind_Ok in Hrss as (r & _ & Hr).
    destruct (clamp01_finite (fsub (float_of_int 1) r)) as (c & Hc).
    rewrite Hc in Hr. injection Hr as <-. eexists. reflexivity. }
  assert (F4 : is_finite (s_fresh Wt pen)).
  { destruct (freshness_penalty_range m pen Hpen) as (c & -> & _).
    eexists. reflexivity. }
  assert (F5 : is_finite (s_ai Wt ai_rate)).
  { destruct (pct_finite _ _ _ Hai) as (c & ->). eexists. reflexivity. }
  assert (F6 : is_finite v_off).
  { unfold s_off in Hoff. apply rbind_Ok in Hoff as (r & _ & Hr).
    destruct (clamp01_finite r) as (c & Hc).
    rewrite Hc in Hr. injection Hr as <-. eexists. reflexivity. }
  assert (F7 : is_finite v_dup).
  { unfold s_dup in Hdup. apply rbind_Ok in Hdup as (r & _ & Hr).
    destruct (clamp01_finite r) as (c & Hc).
    rewrite Hc in Hr. injection Hr as <-. eexists. reflexivity. }
  assert (F8 : is_finite v_hosts).
  { unfold s_hosts in Hhosts. apply rbind_Ok in Hhosts as (r & _ & Hr).
    destruct (clamp01_finite r) as (c & Hc).
    rewrite Hc in Hr. injection Hr as <-. eexists. reflexivity. }
  pose proof (py_round2_finite _
               (fadd_finite _ _
                 (fadd_finite _ _
                   (fadd_finite _ _
                     (fadd_finite _ _
                       (fadd_finite _ _
                         (fadd_finite _ _ (fadd_finite _ _ F1 F2) F3) F4) F5)
                     F6) F7) F8)) as Hfin.
  injection H as <- _. exact Hfin.
Qed.

Lemma add_file_finite (Wt : Weights) (rows rows' : list row)
    (file : string * option json) :
  Forall (fun r => is_finite (score r)) rows ->
  add_file Wt rows file = Ok rows' ->
  Forall (fun r => is_finite (score r)) rows'.
Proof.
  intros Hall. unfold add_file.
  destruct (parse_date_from_filename (fst file)) as [d |];
    [| intros H; injection H as <-; exact Hall].
  destruct (snd file) as [v |]; [| intros H; injection H as <-; exact Hall].
  destruct (negb (String.eqb d "") && py_bool v);
    [| intros H; injection H as <-; exact Hall].
  intros H. apply rbind_Ok in H as ([s dg] & Hs & H). injection H as <-.
  apply List.Forall_app. split; [exact Hall |].
  constructor; [| constructor]. cbn.
  destruct v; try discriminate. exact (score_day_finite Wt kv s dg Hs).
Qed.

(** Every row of a run has a finite score. *)
Lemma scored_rows_finite (Wt : Weights) (files : list (string * option json))
    (rows : list row) :
  scored_rows Wt files = Ok rows ->
  exists qs, map score rows = map Fin qs.
Proof.
  intros H.
  assert (Hall : Forall (fun r => is_finite (score r)) rows).
  { unfold scored_rows in H. revert H.
    assert (Hnil : Forall (fun r : row => is_finite (score r)) [])
      by constructor.
    revert Hnil. generalize (@nil row). revert rows.
    induction files as [| f files IH]; intros rows acc Hacc H; simpl in H.
    - injection H as <-. exact Hacc.
    - apply rbind_Ok in H as (acc' & Hf & H).
      apply (IH rows acc'); [| exact H].
      exact (add_file_finite Wt acc acc' f Hacc Hf). }
  clear H. induction Hall as [| r rows (q & Hq) _ (qs & IH)].
  - exists []. reflexivity.
  - exists (q :: qs). simpl. rewrite Hq, IH. reflexivity.
Qed.

(** What a summary is made of. *)
Lemma main_summary (Wt : Weights) (files : list (string * option json))
    (latest : row) (score7 : pyfloat) (worst sorted : list row) :
  main Wt files = Ok (Summary latest score7 worst sorted) ->
  exists rows,
    scored_rows Wt files = Ok rows /\ rows <> []
    /\ sorted = py_sorted String.ltb date rows
    /\ py_last sorted = Ok latest
    /\ avg (map score (last_days 7 sorted)) = Ok score7
    /\ worst = worst_days 3 sorted.
Proof.
  unfold main. intros H. apply rbind_Ok in H as (rows & Hrows & H).
  destruct rows as [| r rows]; [discriminate |]. cbn [is_nil] in H.
  apply rbind_Ok in H as (l & Hl & H).
  apply rbind_Ok in H as (a & Ha & H).
  injection H as <- <- <- <-.
  exists (r :: rows). repeat split; try assumption. discriminate.
Qed.

(** The average a run reports is the mean of the scores of its last seven
    days, or of all its days when there are fewer. *)
Lemma main_trailing_average (Wt : Weights) (files : list (string * option json))
    (latest : row) (score7 : pyfloat) (worst sorted : list row) :
  main Wt files = Ok (Summary latest score7 worst sorted) ->
  exists qs,
    map score sorted = map Fin qs
    /\ denotes score7 (mean (drop (length qs - 7) qs)).
Proof.
  intros H. apply main_summary in H as (rows & Hrows & Hne & -> & _ & Ha & _).
  destruct (scored_rows_finite Wt files rows Hrows) as (qs0 & Hqs0).
  assert (Hfin : Forall (fun r => is_finite (score r))
                   (py_sorted String.ltb date rows)).
  { apply List.Forall_forall. intros r Hr.
    apply (Permutation_in r (py_sorted_perm String.ltb date rows)) in Hr.
    apply List.in_map with (f := score) in Hr. rewrite Hqs0 in Hr.
    apply List.in_map_iff in Hr as (q & Hq & _). exists q. congruence. }
  assert (Hqs : exists qs, map score (py_sorted String.ltb date rows) = map Fin qs).
  { clear Ha. induction Hfin as [| r l (q & Hq) _ (qs & IH)].
    - exists []. reflexivity.
    - exists (q :: qs). simpl. rewrite Hq, IH. reflexivity. }
  destruct Hqs as (qs & Hqs). exists qs. split; [exact Hqs |].
  assert (Hsne : py_sorted String.ltb date rows <> [])
    by (apply py_sorted_not_nil; exact Hne).
  assert (Hlen : length qs = length (py_sorted String.ltb date rows)).
  { rewrite <- (length_map Fin qs), <- Hqs, length_map. reflexivity. }
  destruct (Z.le_ge_cases (Z.of_nat (length (py_sorted String.ltb date rows))) 7)
    as [Hle | Hge].
  - destruct (last_days_few 7 (py_sorted String.ltb date rows) qs)
      as (a & Ha' & Hd); [reflexivity | exact Hsne | exact Hqs | exact Hle |].
    rewrite Ha in Ha'. injection Ha' as <-.
    replace (length qs - 7)%nat with 0%nat by lia. exact Hd.
  - destruct (last_days_many 7 (py_sorted String.ltb date rows) qs)
      as (_ & _ & a & Ha' & Hd); [reflexivity | exact Hqs | exact Hge |].
    rewrite Ha in Ha'. injection Ha' as <-. exact Hd.
Qed.

(** ** Dates *)

Lemma ascii_compare_lt_trans (a b c : ascii) :
  Ascii.compare a b = Lt -> Ascii.compare b c = Lt -> Ascii.compare a c = Lt.
Proof.
  unfold Ascii.compare. rewrite !N.compare_lt_iff. apply N.lt_trans.
Qed.

(** The order on strings is transitive. *)
Lemma string_compare_trans (s1 s2 s3 : string) :
  String.compare s1 s2 <> Gt -> String.compare s2 s3 <> Gt ->
  String.compare s1 s3 <> Gt.
Proof.
  revert s2 s3. induction s1 as [| a s1 IH]; intros [| b s2] [| c s3]; simpl;
    try congruence.
  destruct (Ascii.compare a b) eqn:Eab; try congruence.
  - apply Ascii.compare_eq_iff in Eab. subst b.
    destruct (Ascii.compare a c) eqn:Eac; try congruence. apply IH.
  - intros _. destruct (Ascii.compare b c) eqn:Ebc; try congruence.
    + apply Ascii.compare_eq_iff in Ebc. subst c. rewrite Eab. congruence.
    + rewrite (ascii_compare_lt_trans a b c Eab Ebc). congruence.
Qed.

Lemma string_ltb_false (s1 s2 : string) :
  String.ltb s1 s2 = false <-> String.compare s2 s1 <> Gt.
Proof.
  unfold String.ltb. rewrite (String.compare_antisym s2 s1).
  destruct (String.compare s1 s2); simpl; split; congruence.
Qed.

Lemma string_ltb_asym (s1 s2 : string) :
  String.ltb s1 s2 = true -> String.ltb s2 s1 = false.
Proof.
  unfold String.ltb. rewrite (String.compare_antisym s2 s1).
  destruct (String.compare s1 s2); simpl; congruence.
Qed.

(** Sorting by date leaves the rows in ascending order of date. *)
Lemma sorted_by_date_ascending (rows : list row) :
  date_ascending (py_sorted String.ltb date rows).
Proof.
  unfold date_ascending. apply Sorted_StronglySorted.
  - intros x y z Hxy Hyz. unfold not_after in *.
    apply string_ltb_false. apply string_ltb_false in Hxy, Hyz.
    exact (string_compare_trans _ _ _ Hxy Hyz).
  - apply py_sorted_sorted. exact string_ltb_asym.
Qed.

(** The worst days a run reports are the three lowest scores of its rows,
    those of equal score in ascending order of date. *)
Lemma main_worst_days (Wt : Weights) (files : list (string * option json))
    (latest : row) (score7 : pyfloat) (worst sorted : list row) :
  main Wt files = Ok (Summary latest score7 worst sorted) ->
  date_ascending sorted
  /\ worst = take 3 (py_sorted flt score sorted)
  /\ forall v, date_ascending (scoring v worst).
Proof.
  intros H. apply main_summary in H as (rows & _ & _ & -> & _ & _ & ->).
  pose proof (sorted_by_date_ascending rows) as Hd.
  split; [exact Hd |].
  split; [apply worst_days_take; discriminate |].
  intros v. apply scoring_worst_ascending; [discriminate | exact Hd].
Qed.

(** * Further properties *)

(** ** The score in closed form *)

Lemma round_half_even_comp (q q' : Q) :
  q == q' -> round_half_even q = round_half_even q'.
Proof.
  intros H. unfold round_half_even. rewrite (Qfloor_comp q q' H).
  assert (Hc : Qcompare (q - inject_Z (Qfloor q')) (1 # 2)
               = Qcompare (q' - inject_Z (Qfloor q')) (1 # 2))
    by (rewrite H; reflexivity).
  rewrite Hc. reflexivity.
Qed.

Lemma round2_comp (q q' : Q) : q == q' -> round2 q = round2 q'.
Proof.
  intros H. unfold round2. rewrite (round_half_even_comp (q * 100) (q' * 100)).
  - reflexivity.
  - rewrite H. reflexivity.
Qed.

Lemma pen_tabs_denotes (thin empty tabs_total : Z) :
  exists p, pen_tabs thin empty tabs_total = Ok p
            /\ denotes p (tabs_penalty thin empty tabs_total).
Proof.
  unfold pen_tabs, tabs_penalty. destruct (tabs_total =? 0)%Z eqn:E; cbn [negb].
  - exists (float_of_int 1). split; [reflexivity | apply denotes_int].
  - apply denotes_truediv.
    + apply denotes_fadd; apply denotes_fmul;
        first [apply denotes_int | apply denotes_Fin].
    + apply denotes_int.
    + apply inject_Z_nonzero. apply Z.eqb_neq. exact E.
Qed.

Lemma one_minus_denotes (a : pyfloat) (x : Q) :
  denotes a x -> denotes (fsub (float_of_int 1) a) (1 - x).
Proof.
  intros H. apply (denotes_fsub (float_of_int 1) a 1 x); [| exact H].
  simpl. reflexivity.
Qed.

Lemma s_tabs_denotes (Wt : Weights) (thin empty tabs_total : Z) :
  exists f, s_tabs Wt thin empty tabs_total = Ok f
            /\ denotes f (tab_completion Wt
                          * Qclamp (1 - tabs_penalty thin empty tabs_total)).
Proof.
  unfold s_tabs.
  destruct (pen_tabs_denotes thin empty tabs_total) as (p & -> & Hp).
  cbn [rbind]. eexists. split; [reflexivity |].
  apply denotes_fmul; [apply denotes_Fin |].
  apply clamp01_denotes, one_minus_denotes, Hp.
Qed.

Lemma s_rss_denotes (Wt : Weights) (rss : Z) :
  exists f, s_rss Wt rss = Ok f
            /\ denotes f (rss_errors Wt * Qclamp (1 - inject_Z rss / 10)).
Proof.
  unfold s_rss.
  destruct (int_truediv_denotes rss (MAX_RSS_ERRORS_FOR_FULL_SCORE * 2))
    as (r & -> & Hr); [discriminate |].
  cbn [rbind]. eexists. split; [reflexivity |].
  apply denotes_fmul; [apply denotes_Fin |].
  apply clamp01_denotes, one_minus_denotes, Hr.
Qed.

(** The shape shared by the off-topic and the duplication terms. *)
Lemma penalty_term_denotes (w : Q) (a : pyfloat) (x : Q) :
  denotes a x ->
  exists f,
    (let* r := truediv a (Fin (1 # 5)) in
     Ok (fmul (Fin w) (fsub (float_of_int 1) (clamp01 r)))) = Ok f
    /\ denotes f (w * (1 - Qclamp (x / (1 # 5)))).
Proof.
  intros Ha.
  destruct (denotes_truediv a (Fin (1 # 5)) x (1 # 5) Ha (denotes_Fin _))
    as (r & -> & Hr); [discriminate |].
  cbn [rbind]. eexists. split; [reflexivity |].
  apply denotes_fmul; [apply denotes_Fin |].
  apply one_minus_denotes, clamp01_denotes, Hr.
Qed.

Lemma s_hosts_denotes (Wt : Weights) (hosts : Z) :
  exists f, s_hosts Wt hosts = Ok f /\ denotes f (term_hosts Wt hosts).
Proof.
  unfold s_hosts, term_hosts.
  destruct (int_truediv_denotes hosts TARGET_HOST_DIVERSITY)
    as (r & -> & Hr); [discriminate |].
  cbn [rbind]. eexists. split; [reflexivity |].
  apply denotes_fmul; [apply denotes_Fin |].
  apply clamp01_denotes, Hr.
Qed.

Lemma s_run_denotes (Wt : Weights) (m : dict) :
  denotes (s_run Wt m) (term_run Wt m).
Proof.
  unfold s_run, term_run. apply denotes_fmul; [apply denotes_Fin |].
  destruct (py_bool _); apply denotes_int.
Qed.

(** The score of a record on which the two traversals return. *)
Lemma score_day_exact (Wt : Weights) (m : dict) (n : Z) (p : pyfloat) (c : Q) :
  host_count m = Ok n ->
  freshness_penalty m = Ok p ->
  denotes p c ->
  exists s dg,
    score_day Wt m = Ok (s, dg)
    /\ hostCount dg = n /\ freshnessPenalty dg = p
    /\ denotes s (round2 (exact_score Wt m n c)).
Proof.
  intros Hhost Hpen Hc.
  unfold score_day. rewrite Hhost, Hpen. cbn [rbind].
  destruct (pct_denotes (counter m "aiStrictCount") (counter m "pickedItemsTotal"))
    as (fa & Ha & Da).
  destruct (pct_denotes (counter m "offTopicCount") (counter m "pickedItemsTotal"))
    as (fo & Ho & Do).
  destruct (pct_denotes (counter m "dupCount")
              (Z.max 1 (counter m "pickedItemsTotal")))
    as (fd & Hd & Dd).
  unfold counter in Ha, Ho, Hd. rewrite Ha, Ho, Hd. cbn [rbind].
  destruct (s_tabs_denotes Wt (counter m "thinTabs") (counter m "noUpdateTabs")
              (counter m "tabsTotal")) as (f2 & E2 & D2).
  unfold counter in E2. rewrite E2. cbn [rbind].
  destruct (s_rss_denotes Wt (counter m "rssErrors")) as (f3 & E3 & D3).
  unfold counter in E3. rewrite E3. cbn [rbind].
  destruct (penalty_term_denotes (off_topic_penalty Wt) fo _ Do)
    as (f6 & E6 & D6).
  unfold s_off, MAX_OFFTOPIC_RATE. rewrite E6. cbn [rbind].
  destruct (penalty_term_denotes (duplication_penalty Wt) fd _ Dd)
    as (f7 & E7 & D7).
  unfold s_dup, MAX_DUP_RATE. rewrite E7. cbn [rbind].
  destruct (s_hosts_denotes Wt n) as (f8 & E8 & D8).
  rewrite E8. cbn [rbind].
  assert (D4 : denotes (s_fresh Wt p) (term_fresh Wt c)).
  { unfold s_fresh, term_fresh. apply denotes_fmul; [apply denotes_Fin |].
    apply one_minus_denotes, Hc. }
  assert (D5 : denotes (s_ai Wt fa) (term_ai Wt m)).
  { unfold s_ai, term_ai. apply denotes_fmul; [apply denotes_Fin | exact Da]. }
  pose proof (denotes_fadd _ _ _ _
               (denotes_fadd _ _ _ _
                 (denotes_fadd _ _ _ _
                   (denotes_fadd _ _ _ _
                     (denotes_fadd _ _ _ _
                       (denotes_fadd _ _ _ _
                         (denotes_fadd _ _ _ _ (s_run_denotes Wt m) D2) D3)
                       D4) D5) D6) D7) D8) as Dsum.
  apply denotes_inv in Dsum as (t & Et & Ht).
  eexists _, _. split; [reflexivity |]. cbn [hostCount freshnessPenalty].
  split; [reflexivity |]. split; [reflexivity |].
  rewrite Et. cbn [py_round2]. unfold fin. cbn [denotes].
  rewrite Qred_correct. rewrite (round2_comp t (exact_score Wt m n c)).
  - reflexivity.
  - rewrite Ht. unfold exact_score, term_tabs, term_rss, term_off, term_dup,
      rate, counter. reflexivity.
Qed.

(** The value of a returned score. *)
Lemma score_day_value (Wt : Weights) (m : dict) (s : pyfloat) (dg : diag) :
  score_day Wt m = Ok (s, dg) ->
  exists c,
    freshnessPenalty dg = Fin c /\ 0 <= c <= 1
    /\ host_count m = Ok (hostCount dg)
    /\ freshness_penalty m = Ok (Fin c)
    /\ denotes s (round2 (exact_score Wt m (hostCount dg) c)).
Proof.
  intros H.
  destruct (score_day_diag Wt m s dg H) as (_ & _ & _ & _ & _ & _ & _ & Hh & Hp).
  destruct (freshness_penalty_range m _ Hp) as (c & Hc & Hr).
  exists c. split; [exact Hc |]. split; [exact Hr |]. rewrite Hc in Hp.
  split; [exact Hh |]. split; [exact Hp |].
  destruct (score_day_exact Wt m (hostCount dg) (Fin c) c Hh Hp (denotes_Fin c))
    as (s' & dg' & Hs & _ & _ & Hd).
  rewrite H in Hs. injection Hs as <- _. exact Hd.
Qed.



(** ** Rounding: shifts and order *)









Lemma Qclamp_bounds (x : Q) : 0 <= Qclamp x <= 1.
Proof.
  unfold Qclamp. split.
  - apply Q.le_max_l.
  - apply Q.max_lub; [discriminate | apply Q.le_min_l].
Qed.

(** ** Further properties of the score *)







Lemma Qdiv_nonpos (a c : Q) : 0 < c -> a <= 0 -> a / c <= 0.
Proof. intros Hc Ha. apply Qle_shift_div_r; [exact Hc | lra]. Qed.

Lemma Qdiv_ge_one (a c : Q) : 0 < c -> c <= a -> 1 <= a / c.
Proof. intros Hc Ha. apply Qle_shift_div_l; [exact Hc | lra]. Qed.

Lemma Qclamp_zero (x : Q) : x <= 0 -> Qclamp x == 0.
Proof. apply Qclamp_low. Qed.

Lemma Qclamp_one (x : Q) : 1 <= x -> Qclamp x == 1.
Proof. apply Qclamp_high. Qed.

Lemma Qclamp_id (x : Q) : 0 <= x <= 1 -> Qclamp x == x.
Proof. apply Qclamp_mid. Qed.



(** X5: a record with a true [runSuccess], a positive tab total without
    thin or idle tabs, no RSS error, every picked item strict-AI, nothing
    off topic or duplicated, ten hosts or more and no stale tab scores the
    sum of the weights, rounded. *)
Theorem full_marks (Wt : Weights) (m : dict) (s : pyfloat) (dg : diag) :
  score_day Wt m = Ok (s, dg) ->
  py_bool (dict_get m "runSuccess" JNull) = true ->
  (0 < counter m "tabsTotal")%Z ->
  counter m "thinTabs" = 0%Z ->
  counter m "noUpdateTabs" = 0%Z ->
  (counter m "rssErrors" <= 0)%Z ->
  (0 < counter m "pickedItemsTotal")%Z ->
  counter m "aiStrictCount" = counter m "pickedItemsTotal" ->
  (counter m "offTopicCount" <= 0)%Z ->
  (counter m "dupCount" <= 0)%Z ->
  (10 <= hostCount dg)%Z ->
  freshnessPenalty dg = Fin 0 ->
  denotes s (round2 (weight_sum Wt)).
Proof.
  intros H Hrun Htt Hthin Hempty Hrss Hpick Hai Hoff Hdup Hhosts Hfresh.
  destruct (score_day_value Wt m s dg H) as (c & Hc & _ & _ & _ & Hd).
  rewrite Hfresh in Hc. injection Hc as <-.
  rewrite (round2_comp (weight_sum Wt) (exact_score Wt m (hostCount dg) 0));
    [exact Hd |].
  assert (Hp : 0 < inject_Z (counter m "pickedItemsTotal")).
  { change 0 with (inject_Z 0). rewrite <- Zlt_Qlt. exact Hpick. }
  assert (Hp1 : (Z.max 1 (counter m "pickedItemsTotal") >? 0)%Z = true) by lia.
  assert (Hpm : 0 < inject_Z (Z.max 1 (counter m "pickedItemsTotal"))).
  { change 0 with (inject_Z 0). rewrite <- Zlt_Qlt. lia. }
  rewrite Zle_Qle in Hrss, Hoff, Hdup, Hhosts.
  change (inject_Z 0) with 0 in *. change (inject_Z 10) with 10 in Hhosts.
  unfold exact_score, weight_sum, term_run, term_tabs, term_rss, term_fresh,
    term_ai, term_off, term_dup, term_hosts, tabs_penalty, rate.
  rewrite Hrun, Hthin, Hempty, Hai, Hp1.
  replace (counter m "tabsTotal" =? 0)%Z with false by lia.
  replace (counter m "pickedItemsTotal" >? 0)%Z with true by lia.
  assert (Ht : Qclamp (1 - (inject_Z 0 * (12 # 100) + inject_Z 0 * (30 # 100))
                            / inject_Z (counter m "tabsTotal")) == 1).
  { apply Qclamp_one.
    assert (E : (inject_Z 0 * (12 # 100) + inject_Z 0 * (30 # 100))
                / inject_Z (counter m "tabsTotal") == 0)
      by (unfold Qdiv; change (inject_Z 0) with 0; ring).
    rewrite E. discriminate. }
  assert (Hr : Qclamp (1 - inject_Z (counter m "rssErrors") / 10) == 1).
  { apply Qclamp_one.
    pose proof (Qdiv_nonpos _ 10 eq_refl Hrss) as Hq.
    set (A := inject_Z (counter m "rssErrors") / 10) in *. lra. }
  assert (Ho : Qclamp (inject_Z (counter m "offTopicCount")
                       / inject_Z (counter m "pickedItemsTotal") / (1 # 5)) == 0).
  { apply Qclamp_zero. apply Qdiv_nonpos; [reflexivity |].
    apply Qdiv_nonpos; assumption. }
  assert (Hdp : Qclamp (inject_Z (counter m "dupCount")
                        / inject_Z (Z.max 1 (counter m "pickedItemsTotal"))
                        / (1 # 5)) == 0).
  { apply Qclamp_zero. apply Qdiv_nonpos; [reflexivity |].
    apply Qdiv_nonpos; assumption. }
  assert (Hh : Qclamp (inject_Z (hostCount dg) / 10) == 1).
  { apply Qclamp_one. apply Qdiv_ge_one; [reflexivity | exact Hhosts]. }
  assert (Ha : inject_Z (counter m "pickedItemsTotal")
               / inject_Z (counter m "pickedItemsTotal") == 1).
  { field. intros E. rewrite E in Hp. apply (Qlt_irrefl 0). exact Hp. }
  rewrite Ht, Hr, Ho, Hdp, Hh, Ha. ring.
Qed.

Lemma score_day_perfect_day :
  score_day W perfect_day = Ok (Fin 100, perfect_day_diag).
Proof. vm_compute. reflexivity. Defined.

Lemma full_marks_witness : denotes (Fin 100) (round2 (weight_sum W)).
Proof.
  apply (full_marks W perfect_day (Fin 100) perfect_day_diag
           score_day_perfect_day);
    first [reflexivity | discriminate].
Defined.

(** ** Where each term gives no credit and full credit *)

Lemma Qclamp_zero_iff (x : Q) : Qclamp x == 0 <-> x <= 0.
Proof.
  split; [| apply Qclamp_zero]. intros H.
  destruct (Qlt_le_dec 0 x) as [Hpos | Hle]; [| exact Hle].
  destruct (Qlt_le_dec x 1) as [Hlt | Hge].
  - rewrite Qclamp_id in H by lra. lra.
  - rewrite Qclamp_one in H by lra. discriminate H.
Qed.

Lemma Qclamp_one_iff (x : Q) : Qclamp x == 1 <-> 1 <= x.
Proof.
  split; [| apply Qclamp_one]. intros H.
  destruct (Qlt_le_dec x 1) as [Hlt | Hge]; [| exact Hge].
  destruct (Qlt_le_dec 0 x) as [Hpos | Hle].
  - rewrite Qclamp_id in H by lra. lra.
  - rewrite Qclamp_zero in H by lra. discriminate H.
Qed.

















(** ** The helpers *)

(** X11: between finite bounds [lo <= hi], [clamp] returns a finite number
    of [[lo, hi]] for every float: [max(lo, min(hi, x))] for a finite [x],
    [lo] for minus infinity, and [hi] for plus infinity and for [nan]. *)
Theorem clamp_within_bounds (x : pyfloat) (lo hi : Q) :
  lo <= hi ->
  exists c,
    clamp x (Fin lo) (Fin hi) = Fin c
    /\ lo <= c <= hi
    /\ match x with
       | Fin q => c == Qmax lo (Qmin hi q)
       | NInf => c == lo
       | PInf | NaN => c == hi
       end.
Proof.
  intros Hb. unfold clamp, py_max2, py_min2, fgt.
  destruct x as [q | | |]; cbn [flt].
  - destruct (Qltb q hi) eqn:E1; cbn [flt].
    + apply Qltb_lt in E1. destruct (Qltb lo q) eqn:E0.
      * apply Qltb_lt in E0. exists q. split; [reflexivity |].
        split; [lra |]. rewrite (Q.min_r hi q) by lra.
        rewrite Q.max_r by lra. reflexivity.
      * apply Qltb_ge in E0. exists lo. split; [reflexivity |].
        split; [lra |]. rewrite (Q.min_r hi q) by lra.
        rewrite Q.max_l by lra. reflexivity.
    + apply Qltb_ge in E1. destruct (Qltb lo hi) eqn:E0.
      * exists hi. split; [reflexivity |]. split; [lra |].
        rewrite (Q.min_l hi q) by lra. rewrite Q.max_r by lra. reflexivity.
      * apply Qltb_ge in E0. exists lo. split; [reflexivity |].
        split; [lra |]. rewrite (Q.min_l hi q) by lra.
        rewrite Q.max_l by lra. reflexivity.
  - destruct (Qltb lo hi) eqn:E0.
    + exists hi. repeat split; lra.
    + apply Qltb_ge in E0. exists lo. repeat split; lra.
  - exists lo. repeat split; lra.
  - destruct (Qltb lo hi) eqn:E0.
    + exists hi. repeat split; lra.
    + apply Qltb_ge in E0. exists lo. repeat split; lra.
Qed.

Lemma clamp_within_bounds_witness :
  exists c,
    clamp NaN (Fin 0) (Fin 1) = Fin c /\ 0 <= c <= 1 /\ c == 1.
Proof. exact (clamp_within_bounds NaN 0 1 ltac:(discriminate)). Defined.






(** ** The host count: bounds and order of the tabs *)

Lemma mapM_length {A B : Type} (f : A -> result B) (l : list A) (r : list B) :
  mapM f l = Ok r -> length r = length l.
Proof.
  revert r. induction l as [| a l IH]; simpl; intros r H.
  - injection H as <-. reflexivity.
  - apply rbind_Ok in H as (b & _ & H).
    apply rbind_Ok in H as (bs & Hbs & H). injection H as <-.
    simpl. rewrite (IH bs Hbs). reflexivity.
Qed.

Lemma size_list_to_set_le (ks : list hkey) :
  (size (list_to_set ks : gset hkey) <= length ks)%nat.
Proof.
  induction ks as [| k ks IH].
  - rewrite list_to_set_nil, size_empty. simpl. lia.
  - rewrite list_to_set_cons, size_union_alt, size_singleton. simpl.
    pose proof (subseteq_size (list_to_set ks ∖ {[k]}) (list_to_set ks : gset hkey)
                  ltac:(set_solver)).
    lia.
Qed.

Lemma size_list_to_set_zero (ks : list hkey) :
  size (list_to_set ks : gset hkey) = 0%nat <-> ks = [].
Proof.
  split.
  - intros H. apply size_empty_inv in H. destruct ks as [| k ks]; [reflexivity |].
    exfalso. assert (Hk : k ∈ (list_to_set (k :: ks) : gset hkey))
      by set_solver.
    rewrite H in Hk. set_solver.
  - intros ->. rewrite list_to_set_nil. apply size_empty.
Qed.

(** X14: the host count [collect_hosts] returns is at most the number of
    non-empty source values found in the tabs, and is 0 exactly when there
    is none. *)
Theorem host_count_bounds (m : dict) (n : Z) :
  collect_hosts m = Ok n ->
  exists vs,
    source_ids m = Ok vs
    /\ (0 <= n <= Z.of_nat (length vs))%Z
    /\ (n = 0%Z <-> vs = []).
Proof.
  intros H. apply collect_hosts_spec in H as (vs & ks & Hvs & Hks & ->).
  exists vs. split; [exact Hvs |].
  pose proof (mapM_length _ _ _ Hks) as Hlen.
  pose proof (size_list_to_set_le ks) as Hle.
  unfold distinct_count. split; [lia |]. split.
  - intros H0. assert (Hs : size (list_to_set ks : gset hkey) = 0%nat) by lia.
    apply size_list_to_set_zero in Hs. subst ks.
    destruct vs; [reflexivity | discriminate Hlen].
  - intros ->. simpl in Hks. injection Hks as <-. reflexivity.
Qed.

Lemma host_count_bounds_witness :
  exists vs,
    source_ids three_sources = Ok vs
    /\ (0 <= 2 <= Z.of_nat (length vs))%Z
    /\ (2%Z = 0%Z <-> vs = []).
Proof.
  apply (host_count_bounds three_sources 2). vm_compute. reflexivity.
Defined.




(** ** The freshness penalty: thresholds and order of the tabs *)




(** With no age above 24 the penalty is 0.0. *)
Lemma fresh_penalty (m : dict) (hs : list pyfloat) :
  freshness_hours m = Ok hs ->
  Forall (fun h => fgt h (float_of_int 24) = false) hs ->
  freshness_penalty m = Ok (Fin 0).
Proof.
  intros Hm Hall. unfold freshness_penalty. rewrite Hm. cbn [rbind].
  destruct (is_nil hs); [reflexivity |].
  assert (Hf : List.filter (fun h => fgt h (float_of_int 24)) hs = []).
  { clear Hm. induction Hall as [| h l Hhd _ IH]; cbn [List.filter];
      [reflexivity |]. rewrite Hhd. exact IH. }
  rewrite Hf. reflexivity.
Qed.

(** With some age above 24 the penalty is that of the largest age. *)
Lemma worst_age_penalty (m : dict) (hs : list pyfloat) :
  freshness_hours m = Ok hs ->
  Exists (fun h => fgt h (float_of_int 24) = true) hs ->
  exists worst c,
    In worst hs
    /\ fgt worst (float_of_int 24) = true
    /\ (forall h, In h hs -> flt worst h = false)
    /\ freshness_penalty m = Ok (Fin c)
    /\ match worst with
       | Fin w => c == Qclamp ((w - 24) / 24)
       | _ => c == 1
       end.
Proof.
  intros Hh Hex.
  destruct (List.filter (fun h => fgt h (float_of_int 24)) hs)
    as [| h over] eqn:Hover.
  { exfalso. apply List.Exists_exists in Hex as (x & Hx & Hgt).
    assert (Hin : In x (List.filter (fun h => fgt h (float_of_int 24)) hs))
      by (apply filter_In; split; assumption).
    rewrite Hover in Hin. destruct Hin. }
  assert (Hsub : forall x, In x (h :: over) ->
                           In x hs /\ fgt x (float_of_int 24) = true).
  { intros x Hx. rewrite <- Hover in Hx. apply filter_In in Hx. exact Hx. }
  assert (Hnn : Forall (fun x => x <> NaN) (h :: over)).
  { apply List.Forall_forall. intros x Hx.
    apply (fgt_not_nan x (float_of_int 24)). apply Hsub. exact Hx. }
  destruct (fold_max_spec over h Hnn) as [Hin Hmax].
  set (worst := fold_left py_max2 over h) in *.
  destruct (Hsub worst Hin) as [Hwin Hwgt].
  destruct (stale_penalty worst Hwgt) as (x & c & Hx & Hc & Hcv).
  exists worst, c. split; [exact Hwin |]. split; [exact Hwgt |].
  split; [| split; [| exact Hcv]].
  - intros y Hy. destruct (fgt y (float_of_int 24)) eqn:Ey.
    + apply Hmax. rewrite <- Hover. apply filter_In. split; assumption.
    + destruct (flt worst y) eqn:E; [| reflexivity].
      unfold fgt in Ey, Hwgt. rewrite <- Ey. symmetry.
      apply (flt_trans _ worst); assumption.
  - unfold freshness_penalty. rewrite Hh. cbn [rbind].
    destruct hs as [| h0 l]; [discriminate Hover |]. cbn [is_nil].
    rewrite Hover. cbn [is_nil py_max rbind]. fold worst.
    rewrite Hx. cbn [rbind]. rewrite Hc. reflexivity.
Qed.

Lemma over_24_dec (hs : list pyfloat) :
  Exists (fun h => fgt h (float_of_int 24) = true) hs
  \/ Forall (fun h => fgt h (float_of_int 24) = false) hs.
Proof.
  induction hs as [| h l [IH | IH]].
  - right. constructor.
  - left. apply Exists_cons_tl. exact IH.
  - destruct (fgt h (float_of_int 24)) eqn:E.
    + left. apply Exists_cons_hd. exact E.
    + right. constructor; assumption.
Qed.

(** X15: the two thresholds of the freshness penalty.  Once the loop over the
    tabs has produced [hours], the penalty is positive exactly when some
    reported age exceeds 24 hours, and it is the full 1.0 exactly when some
    reported age exceeds 24 and is not below 48. *)
Theorem freshness_penalty_thresholds (m : dict) (hours : list pyfloat) :
  freshness_hours m = Ok hours ->
  exists c,
    freshness_penalty m = Ok (Fin c)
    /\ 0 <= c <= 1
    /\ (0 < c <->
        Exists (fun h => fgt h (float_of_int 24) = true) hours)
    /\ (c == 1 <->
        Exists (fun h => fgt h (float_of_int 24) = true
                         /\ flt h (float_of_int 48) = false) hours).
Proof.
  intros Hh. destruct (over_24_dec hours) as [Hex | Hall].
  - destruct (worst_age_penalty m hours Hh Hex)
      as (worst & c & Hin & Hgt & Hmax & Hp & Hc).
    exists c. split; [exact Hp |].
    destruct (freshness_penalty_range m _ Hp) as (c' & Ec & Hrange).
    injection Ec as <-. split; [exact Hrange |]. split.
    + split; [intros _; exact Hex | intros _].
      destruct worst as [w | | |]; try discriminate Hgt; [| lra].
      simpl in Hgt. apply Qltb_lt in Hgt.
      change (inject_Z 24) with 24 in Hgt.
      destruct (Qlt_le_dec 0 c) as [Hpos | Hle]; [exact Hpos | exfalso].
      assert (Hz : Qclamp ((w - 24) / 24) == 0) by lra.
      apply Qclamp_zero_iff in Hz.
      assert (H1 : 0 < (w - 24) / 24)
        by (apply Qlt_shift_div_l; lra).
      lra.
    + split.
      * intros Hone. apply List.Exists_exists. exists worst.
        split; [exact Hin |]. split; [exact Hgt |].
        destruct worst as [w | | |]; try discriminate Hgt; [| reflexivity].
        simpl. apply Qltb_ge. change (inject_Z 48) with 48.
        rewrite Hc in Hone. apply Qclamp_one_iff in Hone.
        destruct (Qlt_le_dec w 48) as [Hlt | Hge]; [exfalso | exact Hge].
        assert (H1 : (w - 24) / 24 < 1)
          by (apply Qlt_shift_div_r; lra).
        lra.
      * intros H48. apply List.Exists_exists in H48 as (h & Hhin & Hh24 & Hh48).
        specialize (Hmax h Hhin).
        destruct worst as [w | | |]; try discriminate Hgt; [| exact Hc].
        rewrite Hc. apply Qclamp_one. apply Qdiv_ge_one; [lra |].
        destruct h as [x | | |]; try discriminate Hh24; try discriminate Hmax.
        simpl in Hh48, Hmax. apply Qltb_ge in Hh48, Hmax.
        change (inject_Z 48) with 48 in Hh48. lra.
  - exists 0. split; [exact (fresh_penalty m hours Hh Hall) |].
    split; [lra |]. split.
    + split; [intros H; lra | intros Hex; exfalso].
      apply List.Exists_exists in Hex as (h & Hin & Hgt).
      rewrite List.Forall_forall in Hall. rewrite (Hall h Hin) in Hgt.
      discriminate.
    + split; [intros H; discriminate H | intros Hex; exfalso].
      apply List.Exists_exists in Hex as (h & Hin & Hgt & _).
      rewrite List.Forall_forall in Hall. rewrite (Hall h Hin) in Hgt.
      discriminate.
Qed.

Lemma freshness_penalty_thresholds_witness :
  exists c,
    freshness_penalty stale_day = Ok (Fin c)
    /\ 0 <= c <= 1
    /\ (0 < c <->
        Exists (fun h => fgt h (float_of_int 24) = true) [float_of_int 48])
    /\ (c == 1 <->
        Exists (fun h => fgt h (float_of_int 24) = true
                         /\ flt h (float_of_int 48) = false) [float_of_int 48]).
Proof.
  apply (freshness_penalty_thresholds stale_day [float_of_int 48]).
  reflexivity.
Defined.




(** ** The date in a file name *)

Lemma string_length_app (a b : string) :
  String.length (a ++ b) = (String.length a + String.length b)%nat.
Proof. induction a as [| c a IH]; simpl; [reflexivity | rewrite IH; reflexivity]. Qed.

Lemma substring_all (s : string) : String.substring 0 (String.length s) s = s.
Proof. induction s as [| c s IH]; simpl; [reflexivity | rewrite IH; reflexivity]. Qed.

Lemma substring_skip (a b : string) (n m : nat) :
  String.substring (String.length a + n) m (a ++ b) = String.substring n m b.
Proof. induction a as [| c a IH]; simpl; [reflexivity | exact IH]. Qed.

Lemma substring_whole (a b : string) :
  String.substring 0 (String.length a) (a ++ b) = a.
Proof.
  induction a as [| c a IH]; simpl.
  - destruct b; reflexivity.
  - rewrite IH. reflexivity.
Qed.

(** A string is what comes before an index followed by what comes after. *)
Lemma substring_split (s : string) (n : nat) :
  (n <= String.length s)%nat ->
  s = String.substring 0 n s
      ++ String.substring n (String.length s - n) s.
Proof.
  revert n. induction s as [| c s IH]; intros n Hn.
  - destruct n; reflexivity.
  - destruct n as [| n].
    + change (String c s
              = String c (String.substring 0 (String.length s) s)).
      rewrite substring_all. reflexivity.
    + simpl in Hn.
      change (String c s
              = String c (String.substring 0 n s
                          ++ String.substring n (String.length s - n) s)).
      f_equal. apply IH. lia.
Qed.

Lemma prefix_app (a b : string) : String.prefix a (a ++ b) = true.
Proof.
  induction a as [| c a IH]; simpl.
  - destruct b; reflexivity.
  - destruct (ascii_dec c c) as [_ | Hne]; [exact IH | congruence].
Qed.

Lemma prefix_inv (a s : string) :
  String.prefix a s = true -> exists b, s = a ++ b.
Proof.
  revert s. induction a as [| c a IH]; intros s H.
  - exists s. reflexivity.
  - destruct s as [| c' s]; [discriminate H |]. simpl in H.
    destruct (ascii_dec c c') as [<- | _]; [| discriminate H].
    destruct (IH s H) as (b & ->). exists b. reflexivity.
Qed.

Lemma endswith_app (a suf : string) : endswith (a ++ suf) suf = true.
Proof.
  unfold endswith. rewrite string_length_app.
  apply andb_true_iff. split.
  - apply Nat.leb_le. lia.
  - replace (String.length a + String.length suf - String.length suf)%nat
      with (String.length a + 0)%nat by lia.
    rewrite substring_skip, substring_all. apply String.eqb_refl.
Qed.

Lemma endswith_inv (s suf : string) :
  endswith s suf = true ->
  s = String.substring 0 (String.length s - String.length suf) s ++ suf.
Proof.
  unfold endswith. intros H. apply andb_true_iff in H as [Hlen Heq].
  apply Nat.leb_le in Hlen. apply String.eqb_eq in Heq.
  rewrite (substring_split s (String.length s - String.length suf)) at 1 by lia.
  replace (String.length s - (String.length s - String.length suf))%nat
    with (String.length suf) by lia.
  rewrite Heq. reflexivity.
Qed.

(** A name that starts with "metrics-" and ends with ".json" has both parts
    side by side at least: the two do not overlap. *)
Lemma metrics_name_inv (name : string) :
  startswith name "metrics-" = true -> endswith name ".json" = true ->
  name = "metrics-" ++ String.substring 8 (String.length name - 5 - 8) name
         ++ ".json".
Proof.
  intros Hs He. apply prefix_inv in Hs as (b & ->).
  destruct (le_lt_dec 5 (String.length b)) as [Hlen | Hlen].
  - pose proof He as He'. unfold endswith in He'.
    apply andb_true_iff in He' as [_ Heq]. apply String.eqb_eq in Heq.
    rewrite string_length_app in Heq |- *.
    change (String.length "metrics-") with 8%nat in Heq |- *.
    change (String.length ".json") with 5%nat in Heq.
    replace (8 + String.length b - 5)%nat
      with (String.length "metrics-" + (String.length b - 5))%nat in Heq
      by (simpl; lia).
    rewrite substring_skip in Heq.
    replace (8 + String.length b - 5 - 8)%nat with (String.length b - 5)%nat
      by lia.
    change 8%nat with (String.length "metrics-" + 0)%nat at 1.
    rewrite substring_skip.
    f_equal.
    rewrite (substring_split b (String.length b - 5)) at 1 by lia.
    replace (String.length b - (String.length b - 5))%nat with 5%nat by lia.
    rewrite Heq. reflexivity.
  - exfalso.
    destruct b as [| c1 [| c2 [| c3 [| c4 [| c5 b]]]]];
      try (vm_compute in He; discriminate He).
    simpl in Hlen. lia.
Qed.




(** X17: the date of a file is what stands between "metrics-" and ".json"
    in its name, and only a name of that shape has a date:
    [parse_date_from_filename] returns [d] exactly when the last component
    of the path reads metrics-[d].json. *)
Theorem parse_date_from_filename_spec (p d : string) :
  parse_date_from_filename p = Some d
  <-> path_name p = "metrics-" ++ d ++ ".json".
Proof.
  unfold parse_date_from_filename. cbv zeta. split.
  - destruct (startswith (path_name p) "metrics-") eqn:Hs; [| discriminate].
    destruct (endswith (path_name p) ".json") eqn:He; [| discriminate].
    cbn [andb]. intros H. injection H as <-.
    apply metrics_name_inv; assumption.
  - intros ->. unfold startswith. rewrite prefix_app.
    rewrite (endswith_app ("metrics-" ++ d) ".json"
             : endswith ("metrics-" ++ d ++ ".json") ".json" = true).
    cbn [andb]. f_equal.
    rewrite string_length_app, string_length_app.
    change (String.length "metrics-") with 8%nat.
    change (String.length ".json") with 5%nat.
    replace (8 + (String.length d + 5) - 5 - 8)%nat with (String.length d)
      by lia.
    change 8%nat with (String.length "metrics-" + 0)%nat.
    rewrite substring_skip. apply substring_whole.
Qed.



(** ** The run: rows, latest day and worst days *)

Lemma for_each_app {A S : Type} (body : S -> A -> result S) (l1 l2 : list A)
    (s : S) :
  for_each body (l1 ++ l2)%list s
  = let* s1 := for_each body l1 s in for_each body l2 s1.
Proof.
  revert s. induction l1 as [| a l1 IH]; intros s; simpl; [reflexivity |].
  destruct (body s a) as [s1 | e]; simpl; [apply IH | reflexivity].
Qed.

(** What one file does to [rows]. *)
Lemma add_file_cases (Wt : Weights) (acc acc1 : list row)
    (f : string * option json) :
  add_file Wt acc f = Ok acc1 ->
  (acc1 = acc
   /\ forall p kv d, f = (p, Some (JDict kv)) ->
         parse_date_from_filename p = Some d -> d <> "" -> kv <> [] -> False)
  \/ (exists p kv d sc dg,
        f = (p, Some (JDict kv))
        /\ parse_date_from_filename p = Some d /\ d <> "" /\ kv <> []
        /\ score_day Wt kv = Ok (sc, dg)
        /\ acc1 = (acc ++ [{| date := d; score := sc; dbg := dg |}])%list).
Proof.
  destruct f as [p o]. unfold add_file. cbn [fst snd].
  destruct (parse_date_from_filename p) as [d |] eqn:Hp.
  2:{ intros H. injection H as <-. left. split; [reflexivity |].
      intros p' kv d' E Hp'. injection E as <- _. congruence. }
  destruct o as [v |].
  2:{ intros H. injection H as <-. left. split; [reflexivity |].
      intros p' kv d' E. discriminate E. }
  destruct (String.eqb d "") eqn:Ed.
  { cbn [negb andb]. intros H. injection H as <-. left.
    split; [reflexivity |].
    intros p' kv d' E Hp' Hd'. injection E as <- _.
    rewrite Hp in Hp'. injection Hp' as <-.
    apply String.eqb_eq in Ed. contradiction. }
  cbn [negb andb].
  destruct (py_bool v) eqn:Ev.
  2:{ intros H. injection H as <-. left. split; [reflexivity |].
      intros p' kv d' E _ _ Hkv. injection E as _ ->.
      destruct kv; [contradiction | discriminate Ev]. }
  intros H. apply rbind_Ok in H as ([sc dg] & Hs & H). injection H as <-.
  destruct v as [| | | | | | kv]; try discriminate Hs.
  right. exists p, kv, d, sc, dg.
  split; [reflexivity |]. split; [exact Hp |].
  split; [intros ->; discriminate Ed |].
  split; [intros ->; discriminate Ev |].
  split; [exact Hs | reflexivity].
Qed.

Lemma scored_from_weaken (Wt : Weights) (f : string * option json)
    (files : list (string * option json)) (r : row) :
  scored_from Wt files r -> scored_from Wt (f :: files) r.
Proof.
  intros (p & kv & Hin & H). exists p, kv. split; [right; exact Hin | exact H].
Qed.

(** The loop of [main] appends one row per scored file and nothing else. *)
Lemma add_files_rows (Wt : Weights) (files : list (string * option json)) :
  forall acc rows,
  for_each (add_file Wt) files acc = Ok rows ->
  exists new,
    rows = (acc ++ new)%list
    /\ (length new <= length files)%nat
    /\ Forall (scored_from Wt files) new
    /\ forall p kv d,
         In (p, Some (JDict kv)) files ->
         parse_date_from_filename p = Some d -> d <> "" -> kv <> [] ->
         exists r, In r new /\ date r = d
                   /\ score_day Wt kv = Ok (score r, dbg r).
Proof.
  induction files as [| f files IH]; intros acc rows H; simpl in H.
  - injection H as <-. exists []. split; [symmetry; apply List.app_nil_r |].
    split; [reflexivity |]. split; [constructor |].
    intros p kv d [].
  - apply rbind_Ok in H as (acc1 & Hf & H).
    destruct (IH acc1 rows H) as (new & -> & Hlen & Hall & Hconv).
    assert (Hall' : Forall (scored_from Wt (f :: files)) new).
    { revert Hall. apply List.Forall_impl. intros r.
      apply scored_from_weaken. }
    apply add_file_cases in Hf
      as [[-> Hnot] | (p & kv & d & sc & dg & -> & Hp & Hd & Hkv & Hs & ->)].
    + exists new. split; [reflexivity |]. split; [simpl; lia |].
      split; [exact Hall' |].
      intros p kv d [E | Hin] Hp Hd Hkv.
      * exfalso. exact (Hnot p kv d E Hp Hd Hkv).
      * exact (Hconv p kv d Hin Hp Hd Hkv).
    + exists ({| date := d; score := sc; dbg := dg |} :: new).
      split; [rewrite <- List.app_assoc; reflexivity |].
      split; [simpl; lia |]. split.
      * constructor; [| exact Hall'].
        exists p, kv. split; [left; reflexivity |]. cbn.
        repeat split; assumption.
      * intros p' kv' d' [E | Hin] Hp' Hd' Hkv'.
        -- injection E as <- <-. rewrite Hp in Hp'. injection Hp' as <-.
           exists {| date := d; score := sc; dbg := dg |}.
           split; [left; reflexivity |]. split; [reflexivity | exact Hs].
        -- destruct (Hconv p' kv' d' Hin Hp' Hd' Hkv') as (r & Hr & Hrest).
           exists r. split; [right; exact Hr | exact Hrest].
Qed.

(** X19: the rows of a run are exactly the scored files.  When a run ends
    with a summary, every row is the score of a file that carries the date
    of the row and holds a non-empty dict, every such file has its row, and
    there are no more rows than files. *)
Theorem rows_are_the_scored_files (Wt : Weights)
    (files : list (string * option json))
    (latest : row) (score7 : pyfloat) (worst sorted : list row) :
  main Wt files = Ok (Summary latest score7 worst sorted) ->
  (length sorted <= length files)%nat
  /\ (forall r, In r sorted -> scored_from Wt files r)
  /\ (forall p kv d,
        In (p, Some (JDict kv)) files ->
        parse_date_from_filename p = Some d -> d <> "" -> kv <> [] ->
        exists r, In r sorted /\ date r = d
                  /\ score_day Wt kv = Ok (score r, dbg r)).
Proof.
  intros H. apply main_summary in H as (rows & Hrows & _ & -> & _).
  pose proof (py_sorted_perm String.ltb date rows) as Hperm.
  unfold scored_rows in Hrows.
  destruct (add_files_rows Wt files [] rows Hrows)
    as (new & -> & Hlen & Hall & Hconv).
  cbn [List.app] in Hperm |- *.
  split; [rewrite (Permutation_length Hperm); exact Hlen |].
  split.
  - intros r Hr. apply (Permutation_in r Hperm) in Hr.
    rewrite List.Forall_forall in Hall. exact (Hall r Hr).
  - intros p kv d Hin Hp Hd Hkv.
    destruct (Hconv p kv d Hin Hp Hd Hkv) as (r & Hr & Hrest).
    exists r. split; [| exact Hrest].
    exact (Permutation_in r (Permutation_sym Hperm) Hr).
Qed.

Lemma rows_are_the_scored_files_witness :
  exists latest score7 worst sorted,
    main W sample_files = Ok (Summary latest score7 worst sorted)
    /\ (length sorted <= length sample_files)%nat
    /\ (forall r, In r sorted -> scored_from W sample_files r).
Proof.
  eexists _, _, _, _. split; [vm_compute; reflexivity |].
  refine (let H := rows_are_the_scored_files W sample_files _ _ _ _ _ in
          conj (proj1 H) (proj1 (proj2 H))).
  vm_compute. reflexivity.
Defined.

Lemma py_last_app {A : Type} (l : list A) (x : A) :
  py_last l = Ok x -> exists init, l = (init ++ [x])%list.
Proof.
  unfold py_last. destruct (List.rev l) as [| y r] eqn:E; [discriminate |].
  intros H. injection H as ->. exists (List.rev r).
  rewrite <- (List.rev_involutive l), E. reflexivity.
Qed.

Lemma StronglySorted_last {A : Type} (R : A -> A -> Prop) (l : list A) (x : A) :
  StronglySorted R (l ++ [x])%list -> Forall (fun y => R y x) l.
Proof.
  induction l as [| a l IH]; simpl; intros H; [constructor |].
  apply StronglySorted_inv in H as [Hs Hall]. constructor.
  - rewrite List.Forall_forall in Hall. apply Hall.
    apply List.in_or_app. right. left. reflexivity.
  - apply IH. exact Hs.
Qed.

Lemma string_ltb_irrefl (s : string) : String.ltb s s = false.
Proof.
  destruct (String.ltb s s) eqn:E; [| reflexivity].
  pose proof (string_ltb_asym s s E) as E'. congruence.
Qed.

(** X20: the latest day is the newest.  When a run ends with a summary, the
    day it reports as the latest is the last of the rows, and no row carries
    a later date. *)
Theorem latest_is_newest (Wt : Weights) (files : list (string * option json))
    (latest : row) (score7 : pyfloat) (worst sorted : list row) :
  main Wt files = Ok (Summary latest score7 worst sorted) ->
  (exists earlier, sorted = (earlier ++ [latest])%list)
  /\ forall r, In r sorted -> String.ltb (date latest) (date r) = false.
Proof.
  intros H. apply main_summary in H as (rows & _ & _ & -> & Hlast & _).
  destruct (py_last_app _ _ Hlast) as (earlier & E).
  split; [exists earlier; exact E |].
  pose proof (sorted_by_date_ascending rows) as Hs.
  rewrite E in Hs |- *. intros r Hr.
  apply List.in_app_or in Hr as [Hr | [<- | []]].
  - apply StronglySorted_last in Hs. rewrite List.Forall_forall in Hs.
    exact (Hs r Hr).
  - apply string_ltb_irrefl.
Qed.

Lemma latest_is_newest_witness :
  exists latest score7 worst sorted,
    main W sample_files = Ok (Summary latest score7 worst sorted)
    /\ date latest = "2024-01-03"
    /\ forall r, In r sorted -> String.ltb (date latest) (date r) = false.
Proof.
  eexists _, _, _, _. split; [vm_compute; reflexivity |].
  split; [reflexivity |].
  refine (proj2 (latest_is_newest W sample_files _ _ _ _ _)).
  vm_compute. reflexivity.
Defined.

(** A list sorted step by step is sorted throughout when the relation is
    transitive over the elements of the list. *)
Lemma Sorted_strongly_on {A : Type} (R : A -> A -> Prop) (P : A -> Prop)
    (l : list A) :
  (forall x y z, P y -> R x y -> R y z -> R x z) ->
  Forall P l -> Sorted R l -> StronglySorted R l.
Proof.
  intros Htrans. induction l as [| a l IH]; intros HP Hs; [constructor |].
  apply Forall_cons_iff in HP as [_ HP].
  apply Sorted_inv in Hs as [Hs Hhd].
  specialize (IH HP Hs). constructor; [exact IH |].
  destruct l as [| b l]; [constructor |].
  apply HdRel_inv in Hhd. apply Forall_cons_iff in HP as [Pb _].
  apply StronglySorted_inv in IH as [_ Hall].
  constructor; [exact Hhd |].
  revert Hall. apply List.Forall_impl. intros z Hbz.
  exact (Htrans a b z Pb Hhd Hbz).
Qed.

Lemma StronglySorted_app_cross {A : Type} (R : A -> A -> Prop)
    (l1 l2 : list A) :
  StronglySorted R (l1 ++ l2)%list ->
  forall x y, In x l1 -> In y l2 -> R x y.
Proof.
  induction l1 as [| a l1 IH]; simpl; intros H x y Hx Hy; [destruct Hx |].
  apply StronglySorted_inv in H as [Hs Hall].
  destruct Hx as [<- | Hx].
  - rewrite List.Forall_forall in Hall. apply Hall.
    apply List.in_or_app. right. exact Hy.
  - exact (IH Hs x y Hx Hy).
Qed.

(** The rows of a run sorted by score are in ascending order throughout:
    their scores are finite, so that "not smaller" is transitive. *)
Lemma scored_rows_by_score (Wt : Weights) (files : list (string * option json))
    (rows sorted : list row) :
  scored_rows Wt files = Ok rows -> Permutation sorted rows ->
  StronglySorted (not_after flt score) (py_sorted flt score sorted).
Proof.
  intros Hrows Hperm.
  destruct (scored_rows_finite Wt files rows Hrows) as (qs & Hqs).
  apply (Sorted_strongly_on _ (fun r => score r <> NaN)).
  - intros x y z Hy Hxy Hyz. unfold not_after in *.
    exact (flt_neg_trans _ _ _ Hy Hyz Hxy).
  - apply List.Forall_forall. intros r Hr.
    apply (Permutation_in r (py_sorted_perm flt score sorted)) in Hr.
    apply (Permutation_in r Hperm) in Hr.
    apply List.in_map with (f := score) in Hr. rewrite Hqs in Hr.
    apply List.in_map_iff in Hr as (q & Hq & _). congruence.
  - apply py_sorted_sorted. exact flt_asym.
Qed.

(** X21: the worst days are the lowest scores.  When a run ends with a
    summary, the worst days are three of the rows (all of them when there
    are fewer), in ascending order of score, and no other row scores below
    any of them. *)
Theorem worst_days_are_lowest (Wt : Weights)
    (files : list (string * option json))
    (latest : row) (score7 : pyfloat) (worst sorted : list row) :
  main Wt files = Ok (Summary latest score7 worst sorted) ->
  exists others,
    Permutation sorted (worst ++ others)%list
    /\ length worst = Nat.min 3 (length sorted)
    /\ StronglySorted (not_after flt score) worst
    /\ forall w r, In w worst -> In r others -> flt (score r) (score w) = false.
Proof.
  intros H. apply main_summary in H as (rows & Hrows & _ & -> & _ & _ & ->).
  set (sorted := py_sorted String.ltb date rows).
  pose proof (py_sorted_perm String.ltb date rows : Permutation sorted rows)
    as Hperm.
  pose proof (scored_rows_by_score Wt files rows sorted Hrows Hperm) as Hs.
  rewrite (worst_days_take 3 sorted) by lia.
  change (Z.to_nat 3) with 3%nat.
  exists (drop 3 (py_sorted flt score sorted)).
  rewrite <- (take_drop 3 (py_sorted flt score sorted)) in Hs.
  split; [| split; [| split]].
  - rewrite take_drop. symmetry. apply py_sorted_perm.
  - rewrite length_take, (Permutation_length (py_sorted_perm flt score sorted)).
    reflexivity.
  - exact (StronglySorted_app_l _ _ _ Hs).
  - intros w r Hw Hr. exact (StronglySorted_app_cross _ _ _ Hs w r Hw Hr).
Qed.

Lemma worst_days_are_lowest_witness :
  exists latest score7 worst sorted others,
    main W sample_files = Ok (Summary latest score7 worst sorted)
    /\ Permutation sorted (worst ++ others)%list
    /\ length worst = 2%nat
    /\ forall w r, In w worst -> In r others -> flt (score r) (score w) = false.
Proof.
  eexists _, _, _, _.
  assert (H : main W sample_files = Ok (Summary _ _ _ _))
    by (vm_compute; reflexivity).
  destruct (worst_days_are_lowest W sample_files _ _ _ _ H)
    as (others & Hp & Hl & _ & Hw).
  exists others. split; [exact H |]. split; [exact Hp |].
  split; [exact Hl | exact Hw].
Defined.

(** X22: a file that holds something other than a dict ends the run.  A file
    with a date whose content loads to a true value that is no dict (a
    non-empty list, a number, a string) makes [main] raise [AttributeError],
    whatever the other files hold, once the files before it are scored. *)
Theorem main_raises_on_non_dict (Wt : Weights)
    (before after : list (string * option json)) (rows : list row)
    (p d : string) (v : json) :
  scored_rows Wt before = Ok rows ->
  parse_date_from_filename p = Some d -> d <> "" ->
  py_bool v = true -> (forall kv, v <> JDict kv) ->
  main Wt (before ++ (p, Some v) :: after)%list = Raise AttributeError.
Proof.
  intros Hrows Hp Hd Hv Hnd. unfold main, scored_rows.
  rewrite for_each_app. unfold scored_rows in Hrows. rewrite Hrows.
  cbn [rbind for_each]. unfold add_file at 1. cbn [fst snd].
  rewrite Hp, Hv.
  assert (Ed : String.eqb d "" = false).
  { destruct (String.eqb d "") eqn:E; [| reflexivity].
    apply String.eqb_eq in E. contradiction. }
  rewrite Ed. cbn [negb andb].
  destruct v as [| | | | | | kv]; try reflexivity.
  exfalso. exact (Hnd kv eq_refl).
Qed.

Lemma main_raises_on_non_dict_witness :
  main W (sample_files
          ++ ("data/metrics/metrics-2024-01-04.json", Some (JList [JInt 1]))
             :: [])%list
  = Raise AttributeError.
Proof.
  eapply (main_raises_on_non_dict W sample_files [] _
            "data/metrics/metrics-2024-01-04.json" "2024-01-04"
            (JList [JInt 1])).
  - vm_compute. reflexivity.
  - vm_compute. reflexivity.
  - discriminate.
  - reflexivity.
  - intros kv. discriminate.
Defined.

(** X23: a skipped file changes nothing.  A file without a date in its name,
    a file that could not be loaded and a file that holds an empty value can
    be removed from the directory: the run ends the same way without it. *)
Theorem main_ignores_skipped_files (Wt : Weights)
    (before after : list (string * option json)) (f : string * option json) :
  skipped f ->
  main Wt (before ++ f :: after)%list = main Wt (before ++ after)%list.
Proof.
  intros Hf. unfold main, scored_rows. rewrite !for_each_app.
  destruct (for_each (add_file Wt) before []) as [rows | e]; [| reflexivity].
  cbn [rbind for_each]. rewrite (add_file_skipped Wt rows f Hf).
  reflexivity.
Qed.

Lemma main_ignores_skipped_files_witness :
  main W ([("data/metrics/metrics-2024-01-01.json", Some (JDict bare_run))]
          ++ ("data/metrics/metrics-2024-01-02.json", None)
             :: [("data/metrics/metrics-2024-01-03.json",
                  Some (JDict perfect_day))])%list
  = main W ([("data/metrics/metrics-2024-01-01.json", Some (JDict bare_run))]
            ++ [("data/metrics/metrics-2024-01-03.json",
                 Some (JDict perfect_day))])%list.
Proof.
  apply main_ignores_skipped_files.
  right. right. left. reflexivity.
Defined.
